(** * KMA Global API: the contact-form backend of [main.py]

    A shallow embedding of the request handlers of [main.py]
    ([test_database], [submit_contact], [_send_confirmation_email]), of
    the [ContactSubmission] schema and of the start-up block, with the
    properties of the submission flow and of the diagnostic endpoint
    proved about them.

    Modelling conventions.
    - A Python [str] is the list of its code points ([list N]); [len]
      and slicing therefore count code points, as in Python.  Lone
      surrogates (U+D800 to U+DFFF) can occur in a [str]; they arrive
      through JSON escapes and cannot be encoded as UTF-8.
    - A Python [dict] with string keys is a [gmap string value].
    - The interpreter (its Unicode tables and its limit on the digits
      of an integer literal), the process environment, the module-level
      database handle, the e-mail syntax checker behind [EmailStr], the
      rendering of a validation error by the framework,
      [create_document] and the SMTP server are collaborators outside
      [main.py]: a [World] fixes what each of them answers, and the
      handlers are functions of it.  Exceptions of collaborators are
      instances of [Exception], which is what the [except] clauses of
      [main.py] catch.
    - Handlers that call collaborators run in a state-and-error monad
      whose state is the log of the calls made so far. *)

From stdpp Require Import gmap strings list fin_maps.
From Stdlib Require Import ZArith NArith Ascii.

#[local] Open Scope string_scope.
#[local] Open Scope list_scope.
#[local] Set Warnings "-register-all,-clear-no-such-hyp".

(** ** Python strings and builtins *)

Module Py.

Abbreviation str := (list N).

(** An ASCII literal of the source as a [str]. *)
Definition lit (s : string) : str :=
  map N_of_ascii (String.list_ascii_of_string s).

Definition nl : str := [10%N].

(** Truth value of an [Optional[str]]: [None] and [""] are false. *)
Definition truthy (o : option str) : bool :=
  match o with
  | Some (_ :: _) => true
  | _ => false
  end.

(** [x or d] for an [Optional[str]] [x] and a [str] [d]. *)
Definition or_else (o : option str) (d : str) : str :=
  match o with
  | Some (c :: s) => c :: s
  | _ => d
  end.

(** [os.getenv(k)] and [os.getenv(k, d)]. *)
Definition getenv (env : gmap string str) (k : string) : option str :=
  env !! k.

Definition getenv_default (env : gmap string str) (k : string) (d : str) : str :=
  default d (env !! k).

Definition between (lo hi c : N) : bool := (lo <=? c)%N && (c <=? hi)%N.

(** *** Encoding as UTF-8

    [s.encode("utf-8")] raises [UnicodeEncodeError] exactly when [s]
    holds a surrogate code point. *)

Definition is_surrogate (c : N) : bool := between 0xD800 0xDFFF c.

Definition has_surrogate (s : str) : bool := existsb is_surrogate s.

(** *** [int(s)] for a [str] [s], base 10

    What [int] accepts depends on the interpreter that runs the code:
    on its Unicode database, which says which code points above ASCII
    are white space and which are decimal digits, and on the limit on
    the number of digits ([sys.get_int_max_str_digits()], set through
    [PYTHONINTMAXSTRDIGITS] or [-X int_max_str_digits]; 0 means no
    limit, and interpreters without the limit behave as with 0). *)

Record runtime := {
  isspace : N → bool;
  todecimal : N → option N;
  int_max_str_digits : nat;
}.

(** CPython first maps the string to ASCII: ASCII code points stay,
    other white space becomes a blank, other decimal digits become
    their ASCII digit, anything else becomes ['?'].  Then it skips C
    white space, reads an optional sign, reads digits that may be
    separated by single underscores, skips C white space and demands
    the end of the string.  A literal of more than 640 digits is
    refused when the limit is set and exceeded. *)

(** White space of the C locale: tab, LF, VT, FF, CR and blank. *)
Definition is_c_space (c : N) : bool := between 9 13 c || (c =? 32)%N.

Definition to_ascii (rt : runtime) (c : N) : N :=
  if (c <? 128)%N then c
  else if isspace rt c then 32%N
  else match todecimal rt c with
       | Some d => if (d <? 10)%N then (48 + d)%N else 63%N
       | None => 63%N
       end.

Definition is_digit (c : N) : bool := between 48 57 c.

Fixpoint skip_space (s : str) : str :=
  match s with
  | c :: r => if is_c_space c then skip_space r else s
  | [] => []
  end.

(** The digit scan: [prev_us] tells that the previous character was an
    underscore, [n] counts the digits read and [v] is their value.
    Returns the count, the value and the unread rest; [None] on a
    doubled or trailing underscore. *)
Fixpoint scan_digits (prev_us : bool) (n : nat) (v : Z) (s : str)
  : option (nat * Z * str) :=
  match s with
  | c :: r =>
      if is_digit c then scan_digits false (S n) (10 * v + Z.of_N (c - 48)) r
      else if (c =? 95)%N then
        if prev_us then None else scan_digits true n v r
      else if prev_us then None else Some (n, v, s)
  | [] => if prev_us then None else Some (n, v, [])
  end.

(** Below this many digits the limit is not looked at. *)
Definition max_str_digits_threshold : nat := 640.

Definition too_many_digits (rt : runtime) (n : nat) : bool :=
  (max_str_digits_threshold <? n)%nat
  && (0 <? int_max_str_digits rt)%nat
  && (int_max_str_digits rt <? n)%nat.

Definition int (rt : runtime) (s : str) : option Z :=
  let b := skip_space (map (to_ascii rt) s) in
  let '(negative, b) :=
    match b with
    | 43%N :: r => (false, r)
    | 45%N :: r => (true, r)
    | _ => (false, b)
    end in
  match b with
  | 95%N :: _ => None
  | _ =>
      match scan_digits false 0 0 b with
      | Some (n, v, rest) =>
          match n with
          | O => None
          | S _ =>
              if too_many_digits rt n then None
              else
                match skip_space rest with
                | [] => Some (if negative then (- v)%Z else v)
                | _ :: _ => None
                end
          end
      | None => None
      end
  end.

End Py.

(** ** Values, exceptions and the monad of the handlers *)

(** The values that occur in the dictionaries the handlers return. *)
Inductive value :=
| VNone
| VBool (b : bool)
| VStr (s : Py.str)
| VList (l : list Py.str)
| VDict (d : gmap string value).

(** An exception raised by a collaborator.  The handlers only ever look
    at [str(e)]. *)
Record Exception := { str_of : Py.str }.

(** The exceptions of class [ValueError] that are raised inside
    [main.py] itself: the one of [int] on a malformed literal and the
    [UnicodeEncodeError] of an encoding that fails. *)
Inductive ValueError :=
| InvalidLiteral (s : Py.str)
| UnicodeEncodeError (s : Py.str).

(** [M S E A]: a computation over a state [S] that returns an [A] or
    raises an [E].  The state survives a raise, as assignments made
    before a Python exception do. *)
Definition M (S E A : Type) : Type := S → (E + A) * S.

Definition ret {S E A} (a : A) : M S E A := λ s, (inr a, s).

Definition raise {S E A} (e : E) : M S E A := λ s, (inl e, s).

Definition bind {S E A B} (m : M S E A) (f : A → M S E B) : M S E B :=
  λ s, match m s with
       | (inr a, s') => f a s'
       | (inl e, s') => (inl e, s')
       end.

(** [try: m  except Exception as e: h e].  The handler may raise
    errors of another kind than the body. *)
Definition try_except {S E E' A} (m : M S E A) (h : E → M S E' A) : M S E' A :=
  λ s, match m s with
       | (inr a, s') => (inr a, s')
       | (inl e, s') => h e s'
       end.

(** A pure step that may fail. *)
Definition lift_option {S E A} (o : option A) (e : E) : M S E A :=
  match o with
  | Some a => ret a
  | None => raise e
  end.

(** The answer of a collaborator as a step. *)
Definition lift_sum {S E A} (r : E + A) : M S E A := λ s, (r, s).

Notation "'let*' x ':=' m 'in' f" := (bind m (λ x, f))
  (at level 10, x name, m at level 100, f at level 200,
   format "'[v' 'let*'  x  :=  m  'in'  '/' f ']'").

(** ** The [ContactSubmission] schema and its validation *)

(** A member of the JSON object of a request body, as far as the
    schema tells members apart: [null], a string, or anything else (a
    number, a boolean, an array, an object).  The names of the members
    are taken as texts. *)
Inductive json :=
| JNull
| JString (s : Py.str)
| JOther.

Record ContactSubmission := {
  name : Py.str;
  email : Py.str;
  phone : option Py.str;
  business : option Py.str;
  budget : option Py.str;
  description : Py.str;
}.

(** One entry of the detail list of a validation error. *)
Inductive violation :=
| Missing (field : string)
| StringType (field : string)
| StringUnicode (field : string)
| StringTooShort (field : string) (min_length : nat)
| StringTooLong (field : string) (max_length : nat)
| InvalidEmail (field : string).

(** A required [str] field declared with
    [Field(..., min_length=lo, max_length=hi)].  The value has to be a
    string; a constrained string is first read as Unicode text, which
    fails on a lone surrogate; then the bounds are tested.  The first
    failing check is the one reported. *)
Definition check_str (field : string) (lo : nat) (hi : option nat)
    (v : option json) : violation + Py.str :=
  match v with
  | None => inl (Missing field)
  | Some (JString s) =>
      if Py.has_surrogate s then inl (StringUnicode field)
      else if (length s <? lo)%nat then inl (StringTooShort field lo)
      else match hi with
           | Some h =>
               if (h <? length s)%nat then inl (StringTooLong field h)
               else inr s
           | None => inr s
           end
  | Some _ => inl (StringType field)
  end.

(** A required [EmailStr] field: a string, handed as it is to the
    address checker of the [email_validator] package.  [syntax] is that
    checker: the normalised address, or [None] on a syntax error. *)
Definition check_email (field : string) (syntax : Py.str → option Py.str)
    (v : option json) : violation + Py.str :=
  match v with
  | None => inl (Missing field)
  | Some (JString s) =>
      match syntax s with
      | Some s' => inr s'
      | None => inl (InvalidEmail field)
      end
  | Some _ => inl (StringType field)
  end.

(** An [Optional[str]] field without constraints: absent, [null] or any
    string, which is taken as it is. *)
Definition check_optional (field : string) (v : option json)
  : violation + option Py.str :=
  match v with
  | None | Some JNull => inr None
  | Some (JString s) => inr (Some s)
  | Some JOther => inl (StringType field)
  end.

Definition errors_of {A} (r : violation + A) : list violation :=
  match r with
  | inl v => [v]
  | inr _ => []
  end.

(** Construction of a [ContactSubmission] from the members of a JSON
    object.  Fields are checked in the order of their declaration, all
    violations are collected, and members that the schema does not
    declare are ignored. *)
Definition parse_ContactSubmission (syntax : Py.str → option Py.str)
    (raw : gmap string json) : list violation + ContactSubmission :=
  let n := check_str "name" 2 (Some 120) (raw !! "name") in
  let e := check_email "email" syntax (raw !! "email") in
  let p := check_optional "phone" (raw !! "phone") in
  let b := check_optional "business" (raw !! "business") in
  let g := check_optional "budget" (raw !! "budget") in
  let d := check_str "description" 10 None (raw !! "description") in
  match n, e, p, b, g, d with
  | inr n', inr e', inr p', inr b', inr g', inr d' =>
      inr {| name := n'; email := e';
             phone := p'; business := b'; budget := g';
             description := d' |}
  | _, _, _, _, _, _ =>
      inl (errors_of n ++ errors_of e ++ errors_of p ++ errors_of b
           ++ errors_of g ++ errors_of d)
  end.

(** ** The collaborators *)

(** What reading an attribute of an object gives. *)
Inductive attribute :=
| AttrMissing
| AttrValue (v : Py.str)
| AttrRaises (e : Exception).

(** The database handle [db] imported from [database], seen through the
    two members [test_database] uses. *)
Record Database := {
  db_name : attribute;
  list_collection_names : Exception + list Py.str;
}.

(** The message handed to the SMTP server ([MIMEText] with its three
    headers). *)
Record Message := {
  msg_body : Py.str;
  msg_subject : Py.str;
  msg_from : Py.str;
  msg_to : Py.str;
}.

(** What a request does, in the order it happens: the calls to the
    store and to the SMTP server, and the entry into the notifier
    ([Notify]). *)
Inductive event :=
| CreateDocument (collection : Py.str) (payload : ContactSubmission)
| Notify (payload : ContactSubmission)
| SmtpConnect (host : Py.str) (port : Z)
| SmtpStartTLS
| SmtpLogin (user password : Py.str)
| SmtpSendmail (from_addr : Py.str) (to_addrs : list Py.str) (msg : Message)
| SmtpExit.

(** A world describes the surroundings of one request.  During one
    request every collaborator is called at most once, so what it
    answers is a value: the result, or the exception it raises.
    [render_detail] is the framework turning the detail of a validation
    error, which echoes the rejected input, into the body of a 422
    response. *)
Record World := {
  python : Py.runtime;
  environ : gmap string Py.str;
  db : option Database;
  email_syntax : Py.str → option Py.str;
  render_detail : list violation → Exception + ();
  create_document : Exception + Py.str;
  smtp_connect : Exception + ();
  smtp_starttls : Exception + ();
  smtp_login : Exception + ();
  smtp_sendmail : Exception + ();
  smtp_exit : Exception + ();
}.

(** A call to a collaborator: it is logged, and what it answers comes
    from the world. *)
Definition call {A} (ev : event) (answer : Exception + A)
  : M (list event) Exception A :=
  λ t, (answer, t ++ [ev]).

(** Entry into a step of the handler, logged without an answer. *)
Definition enter {E} (ev : event) : M (list event) E () :=
  λ t, (inr (), t ++ [ev]).

(** [with smtplib.SMTP(host, port) as server: body].  When the
    constructor raises, nothing else runs.  Otherwise [__exit__] runs
    whether or not the body raised; it does not suppress the exception
    of the body, and an exception of its own replaces that one. *)
Definition with_SMTP (w : World) (host : Py.str) (port : Z)
    (body : M (list event) Exception ()) : M (list event) Exception () :=
  let* _ := call (SmtpConnect host port) (smtp_connect w) in
  λ t, match body t with
       | (inr _, t') => call SmtpExit (smtp_exit w) t'
       | (inl e, t') =>
           match call SmtpExit (smtp_exit w) t' with
           | (inr _, t'') => (inl e, t'')
           | (inl e', t'') => (inl e', t'')
           end
       end.

(** ** The handlers of [main.py] *)

(** A dict literal. *)
Definition dict (items : list (string * value)) : gmap string value :=
  list_to_map items.

(** [response[k] = v]. *)
Definition setitem {E} (k : string) (v : value) : M (gmap string value) E () :=
  λ r, (inr (), <[k := v]> r).

(** The [response] dict of [test_database] as it is initialised. *)
Definition initial_response : gmap string value :=
  dict [("backend", VStr (0x2705%N :: Py.lit " Running"));
        ("database", VStr (0x274C%N :: Py.lit " Not Available"));
        ("database_url", VStr (0x274C%N :: Py.lit " Not Set"));
        ("database_name", VStr (0x274C%N :: Py.lit " Not Set"));
        ("connection_status", VStr (Py.lit "Not Connected"));
        ("collections", VList [])].

(** The inner [try] block of [test_database]: the listing of the
    collections and its own [except] clause. *)
Definition list_collections {E} (db : Database) : M (gmap string value) E () :=
  try_except
    (let* collections := lift_sum (list_collection_names db) in
     let* _ := setitem "collections" (VList (take 10 collections)) in
     let* _ := setitem "database"
                 (VStr (0x2705%N :: Py.lit " Connected & Working")) in
     setitem "connection_status" (VStr (Py.lit "Connected")))
    (λ e, setitem "database"
            (VStr ([0x26A0%N; 0xFE0F%N] ++ Py.lit " Connected but Error: "
                   ++ take 80 (str_of e)))).

(** [GET /test].  The state of the monad is the [response] dict, so
    that the assignments made before an exception are kept.  Reading
    [db.name] behind [hasattr] gives the value when the attribute
    exists, takes the other branch when it does not, and lets any other
    exception through.  No [except] clause can raise, hence the empty
    error type of the whole body. *)
Definition test_database (w : World) : gmap string value :=
  let body : M (gmap string value) Empty_set () :=
    try_except
      (match db w with
       | Some db =>
           let* _ := setitem "database" (VStr (0x2705%N :: Py.lit " Available")) in
           let* _ := setitem "database_url"
                       (VStr (if Py.truthy (Py.getenv (environ w) "DATABASE_URL")
                              then 0x2705%N :: Py.lit " Set"
                              else 0x274C%N :: Py.lit " Not Set")) in
           let* database_name :=
             match db_name db with
             | AttrValue v => ret v
             | AttrMissing =>
                 ret (Py.or_else (Py.getenv (environ w) "DATABASE_NAME")
                                 (Py.lit "Unknown"))
             | AttrRaises e => raise e
             end in
           let* _ := setitem "database_name" (VStr database_name) in
           list_collections db
       | None =>
           setitem "database"
             (VStr ([0x26A0%N; 0xFE0F%N] ++ Py.lit " Available but not initialized"))
       end)
      (λ e, setitem "database"
              (VStr (0x274C%N :: Py.lit " Error: " ++ take 80 (str_of e)))) in
  snd (body initial_response).

(** The subject and the body of the confirmation (lines 109 to 120).
    An optional field that is absent or empty is shown as ["N/A"]. *)
Definition subject_text : Py.str :=
  Py.lit "KMA Global " ++ [0x2013%N] ++ Py.lit " We" ++ [0x2019%N]
  ++ Py.lit "ve received your enquiry".

Definition body_text (payload : ContactSubmission) : Py.str :=
  Py.lit "Hi " ++ name payload ++ Py.lit "," ++ Py.nl ++ Py.nl
  ++ Py.lit "Thanks for reaching out to KMA Global. We" ++ [0x2019%N]
  ++ Py.lit "ve received your message and a consultant will get back to you shortly."
  ++ Py.nl ++ Py.nl
  ++ Py.lit "Summary of your submission:" ++ Py.nl
  ++ [0x2013%N] ++ Py.lit " Email: " ++ email payload ++ Py.nl
  ++ [0x2013%N] ++ Py.lit " Phone: "
  ++ Py.or_else (phone payload) (Py.lit "N/A") ++ Py.nl
  ++ [0x2013%N] ++ Py.lit " Business: "
  ++ Py.or_else (business payload) (Py.lit "N/A") ++ Py.nl
  ++ [0x2013%N] ++ Py.lit " Budget: "
  ++ Py.or_else (budget payload) (Py.lit "N/A") ++ Py.nl ++ Py.nl
  ++ Py.lit "If you" ++ [0x2019%N]
  ++ Py.lit "d like to book a call now, you can use our scheduling link: https://calendly.com/"
  ++ Py.nl ++ Py.nl
  ++ Py.lit "Best regards," ++ Py.nl ++ Py.lit "KMA Global".

(** [MIMEText(body)] followed by the three header assignments (lines
    122 to 125).  The body always holds U+2019, so it is not ASCII and
    the constructor encodes it as UTF-8, which raises
    [UnicodeEncodeError] on a lone surrogate.  Assigning a header does
    not raise. *)
Definition MIMEText (body subject from_email to_email : Py.str)
  : option Message :=
  if Py.has_surrogate body then None
  else Some {| msg_body := body; msg_subject := subject;
               msg_from := from_email; msg_to := to_email |}.

(** The notifier.  [int] is applied to the port text before the
    configuration is looked at, and the message is built after it;
    both happen outside the [try] block. *)
Definition _send_confirmation_email (w : World) (payload : ContactSubmission)
  : M (list event) ValueError (gmap string value) :=
  let* _ := enter (Notify payload) in
  let host := Py.getenv (environ w) "SMTP_HOST" in
  let port_text := Py.getenv_default (environ w) "SMTP_PORT" (Py.lit "587") in
  let* port := lift_option (Py.int (python w) port_text)
                 (InvalidLiteral port_text) in
  let user := Py.getenv (environ w) "SMTP_USER" in
  let password := Py.getenv (environ w) "SMTP_PASS" in
  let from_email :=
    Py.getenv_default (environ w) "SMTP_FROM" (Py.or_else user []) in
  let to_email := email payload in
  if negb (Py.truthy host && Py.truthy user && Py.truthy password
           && Py.truthy (Some from_email))
  then
    ret (dict [("sent", VBool false);
               ("reason", VStr (Py.lit "SMTP not configured"))])
  else
    let host := default [] host in
    let user := default [] user in
    let password := default [] password in
    let subject := subject_text in
    let body := body_text payload in
    let* msg := lift_option (MIMEText body subject from_email to_email)
                  (UnicodeEncodeError body) in
    try_except
      (let* _ :=
         with_SMTP w host port
           (let* _ := call SmtpStartTLS (smtp_starttls w) in
            let* _ := call (SmtpLogin user password) (smtp_login w) in
            call (SmtpSendmail from_email [to_email] msg) (smtp_sendmail w)) in
       ret (dict [("sent", VBool true)]))
      (λ e, ret (dict [("sent", VBool false);
                       ("reason", VStr (take 120 (str_of e)))])).

(** [POST /api/contact], once the body has been validated. *)
Definition submit_contact (w : World) (payload : ContactSubmission)
  : M (list event) ValueError (gmap string value) :=
  let* doc_id :=
    try_except
      (let* i := call (CreateDocument (Py.lit "contactsubmission") payload)
                   (create_document w) in
       ret (VStr i))
      (λ _, ret VNone) in
  let* email_result := _send_confirmation_email w payload in
  ret (dict [("ok", VBool true);
             ("id", doc_id);
             ("email", VDict email_result);
             ("message",
              VStr (Py.lit "Thanks. We" ++ [0x2019%N]
                    ++ Py.lit "ve received your details and will be in touch shortly."))]).

(** ** The route [POST /api/contact] as the framework serves it *)

Inductive http_response :=
| Ok200 (body : gmap string value)
| UnprocessableEntity (detail : list violation)
| InternalServerError.

(** The framework builds the [payload] argument from the request body
    and calls the handler only when that succeeds.  When it fails, the
    framework renders the detail as a 422 response; when that rendering
    raises, as when an exception leaves the handler, the response is a
    500.  The result is the response together with the log of the
    calls made. *)
Definition post_api_contact (w : World) (raw : gmap string json)
  : http_response * list event :=
  match parse_ContactSubmission (email_syntax w) raw with
  | inl detail =>
      match render_detail w detail with
      | inr _ => (UnprocessableEntity detail, [])
      | inl _ => (InternalServerError, [])
      end
  | inr payload =>
      match submit_contact w payload [] with
      | (inr body, t) => (Ok200 body, t)
      | (inl _, t) => (InternalServerError, t)
      end
  end.

(** A member of the JSON body of a response; [None] when the response
    is not a success. *)
Definition member (r : http_response) (k : string) : option value :=
  match r with
  | Ok200 body => body !! k
  | _ => None
  end.

(** ** What the schema and the specification call invalid *)

(** The ways a value can violate a required string field with bounds
    [lo] and [hi]. *)
Inductive str_violated (f : string) (lo : nat) (hi : option nat)
    (v : option json) : violation → Prop :=
| str_missing :
    v = None → str_violated f lo hi v (Missing f)
| str_not_a_string j :
    v = Some j → (∀ s, j ≠ JString s) → str_violated f lo hi v (StringType f)
| str_not_unicode s :
    v = Some (JString s) → Py.has_surrogate s = true →
    str_violated f lo hi v (StringUnicode f)
| str_too_short s :
    v = Some (JString s) → Py.has_surrogate s = false → length s < lo →
    str_violated f lo hi v (StringTooShort f lo)
| str_too_long s h :
    v = Some (JString s) → Py.has_surrogate s = false →
    (lo ≤ length s)%nat → hi = Some h → h < length s →
    str_violated f lo hi v (StringTooLong f h).

(** The constraints of the data model a request body can violate. *)
Inductive violated (syntax : Py.str → option Py.str) (raw : gmap string json)
  : violation → Prop :=
| name_violated v :
    str_violated "name" 2 (Some 120) (raw !! "name") v →
    violated syntax raw v
| email_missing :
    raw !! "email" = None → violated syntax raw (Missing "email")
| email_not_a_string j :
    raw !! "email" = Some j → (∀ s, j ≠ JString s) →
    violated syntax raw (StringType "email")
| email_malformed s :
    raw !! "email" = Some (JString s) → syntax s = None →
    violated syntax raw (InvalidEmail "email")
| phone_not_a_string :
    raw !! "phone" = Some JOther → violated syntax raw (StringType "phone")
| business_not_a_string :
    raw !! "business" = Some JOther →
    violated syntax raw (StringType "business")
| budget_not_a_string :
    raw !! "budget" = Some JOther → violated syntax raw (StringType "budget")
| description_violated v :
    str_violated "description" 10 None (raw !! "description") v →
    violated syntax raw v.


(** The violations the schema reports for a body, field by field. *)
Definition all_violations (syntax : Py.str → option Py.str)
    (raw : gmap string json) : list violation :=
  errors_of (check_str "name" 2 (Some 120) (raw !! "name"))
  ++ errors_of (check_email "email" syntax (raw !! "email"))
  ++ errors_of (check_optional "phone" (raw !! "phone"))
  ++ errors_of (check_optional "business" (raw !! "business"))
  ++ errors_of (check_optional "budget" (raw !! "budget"))
  ++ errors_of (check_str "description" 10 None (raw !! "description")).

(** An optional member as the submission holds it. *)
Definition passed_on (v : option json) (o : option Py.str) : Prop :=
  (o = None ∧ (v = None ∨ v = Some JNull))
  ∨ (∃ s, o = Some s ∧ v = Some (JString s)).

(** ** What the specification calls unconfigured mail *)

(** A setting is missing when it is unset or empty. *)
Definition missing (o : option Py.str) : Prop := o = None ∨ o = Some [].

(** Host, user, credential or from-address missing.  The from-address
    falls back to the user when [SMTP_FROM] is unset, so on its own it
    is missing only when [SMTP_FROM] is set and empty. *)
Definition mail_unconfigured (env : gmap string Py.str) : Prop :=
  missing (env !! "SMTP_HOST")
  ∨ missing (env !! "SMTP_USER")
  ∨ missing (env !! "SMTP_PASS")
  ∨ env !! "SMTP_FROM" = Some [].

(** The text [int] is applied to in the notifier. *)
Definition port_text (env : gmap string Py.str) : Py.str :=
  Py.getenv_default env "SMTP_PORT" (Py.lit "587").

(** The exception, if any, that leaves the SMTP session: a failure to
    connect, to negotiate TLS, to authenticate, to send, or to close. *)
Inductive transport_failure (w : World) : Exception → Prop :=
| connect_fails e :
    smtp_connect w = inl e → transport_failure w e
| starttls_fails e :
    smtp_connect w = inr () → smtp_starttls w = inl e →
    smtp_exit w = inr () → transport_failure w e
| login_fails e :
    smtp_connect w = inr () → smtp_starttls w = inr () →
    smtp_login w = inl e → smtp_exit w = inr () → transport_failure w e
| sendmail_fails e :
    smtp_connect w = inr () → smtp_starttls w = inr () →
    smtp_login w = inr () → smtp_sendmail w = inl e →
    smtp_exit w = inr () → transport_failure w e
| exit_fails e :
    smtp_connect w = inr () → smtp_exit w = inl e → transport_failure w e.

(** ** The parts of a successful response *)

(** The identifier as the response shows it: the one the store
    returned, or [None] when storing raised. *)
Definition stored_id (w : World) : value :=
  match create_document w with
  | inr i => VStr i
  | inl _ => VNone
  end.

Definition acknowledgment : Py.str :=
  Py.lit "Thanks. We" ++ [0x2019%N]
  ++ Py.lit "ve received your details and will be in touch shortly.".

Definition not_configured : gmap string value :=
  dict [("sent", VBool false); ("reason", VStr (Py.lit "SMTP not configured"))].

Definition not_sent (e : Exception) : gmap string value :=
  dict [("sent", VBool false); ("reason", VStr (take 120 (str_of e)))].

Definition success_body (w : World) (email_result : gmap string value)
  : gmap string value :=
  dict [("ok", VBool true);
        ("id", stored_id w);
        ("email", VDict email_result);
        ("message", VStr acknowledgment)].

Definition persist_call (payload : ContactSubmission) : event :=
  CreateDocument (Py.lit "contactsubmission") payload.

(** ** The fields of the diagnostic response *)

Definition diagnostic_keys : gset string :=
  {[ "backend"; "database"; "database_url"; "database_name";
     "connection_status"; "collections" ]}.

(** What [database_url] shows once a handle exists. *)
Definition url_status (env : gmap string Py.str) : Py.str :=
  if Py.truthy (env !! "DATABASE_URL")
  then 0x2705%N :: Py.lit " Set"
  else 0x274C%N :: Py.lit " Not Set".

(** The two error strings a failing probe can leave in [database]. *)
Definition probe_error (e : Exception) : Py.str :=
  0x274C%N :: Py.lit " Error: " ++ take 80 (str_of e).

Definition listing_error (e : Exception) : Py.str :=
  [0x26A0%N; 0xFE0F%N] ++ Py.lit " Connected but Error: " ++ take 80 (str_of e).

(** The name the handle resolves to when reading it does not raise. *)
Inductive resolved_name (env : gmap string Py.str) (d : Database) : Py.str → Prop :=
| name_of_handle v :
    db_name d = AttrValue v → resolved_name env d v
| name_of_environment :
    db_name d = AttrMissing →
    resolved_name env d (Py.or_else (env !! "DATABASE_NAME") (Py.lit "Unknown")).

(** The four shapes the response can take. *)
Inductive diagnostic_case (w : World) : Prop :=
| no_handle :
    db w = None → diagnostic_case w
| name_raises d e :
    db w = Some d → db_name d = AttrRaises e → diagnostic_case w
| listing_raises d nm e :
    db w = Some d → resolved_name (environ w) d nm →
    list_collection_names d = inl e → diagnostic_case w
| listing_returns d nm names :
    db w = Some d → resolved_name (environ w) d nm →
    list_collection_names d = inr names → diagnostic_case w.

(** ** What can be encoded *)

(** A text without lone surrogates. *)
Definition well_formed (s : Py.str) : Prop := Py.has_surrogate s = false.

(** A submission whose confirmation can be encoded: no lone surrogate
    in the name, the address or an optional field shown in the body. *)
Definition encodable (p : ContactSubmission) : Prop :=
  well_formed (name p)
  ∧ well_formed (email p)
  ∧ well_formed (default [] (phone p))
  ∧ well_formed (default [] (business p))
  ∧ well_formed (default [] (budget p)).

(** ** Start-up *)

(** The port the server is started on, [int(os.getenv("PORT", 8000))]:
    the default is the number 8000 itself, a text found in the
    environment goes through [int]. *)
Definition main_port (rt : Py.runtime) (env : gmap string Py.str)
  : ValueError + Z :=
  match env !! "PORT" with
  | None => inr 8000%Z
  | Some s =>
      match Py.int rt s with
      | Some p => inr p
      | None => inl (InvalidLiteral s)
      end
  end.

(** ** Vocabulary for the properties of the whole code *)

(** The field a violation is about. *)
Definition field_of (v : violation) : string :=
  match v with
  | Missing f | StringType f | StringUnicode f
  | StringTooShort f _ | StringTooLong f _ | InvalidEmail f => f
  end.

(** The fields [ContactSubmission] declares. *)
Definition declared_fields : gset string :=
  {[ "name"; "email"; "phone"; "business"; "budget"; "description" ]}.

(** The keys of the dict [submit_contact] returns. *)
Definition body_keys : gset string := {[ "ok"; "id"; "email"; "message" ]}.

(** Calls to the SMTP server, as opposed to the store and the entry
    into the notifier. *)
Definition is_smtp (ev : event) : bool :=
  match ev with
  | CreateDocument _ _ | Notify _ => false
  | _ => true
  end.

(** What the notifier returns for an answer of the SMTP session. *)
Definition sent_result (r : Exception + ()) : gmap string value :=
  match r with
  | inr _ => dict [("sent", VBool true)]
  | inl e => not_sent e
  end.

(** The exception that leaves the [with] block when its body raised
    [e] and [__exit__] answered [x]. *)
Definition leaving (e : Exception) (x : Exception + ()) : Exception :=
  match x with
  | inl e' => e'
  | inr _ => e
  end.

(** The runs of the SMTP session: what leaves the [with] block and the
    calls made, for the connect call [c], the login call [l] and the
    send call [s]. *)
Inductive session (w : World) (c l s : event)
  : Exception + () → list event → Prop :=
| refused_connection e :
    smtp_connect w = inl e →
    session w c l s (inl e) [c]
| failed_starttls e x :
    smtp_connect w = inr () → smtp_starttls w = inl e → smtp_exit w = x →
    session w c l s (inl (leaving e x))
            [c; SmtpStartTLS; SmtpExit]
| failed_login e x :
    smtp_connect w = inr () → smtp_starttls w = inr () →
    smtp_login w = inl e → smtp_exit w = x →
    session w c l s (inl (leaving e x))
            [c; SmtpStartTLS; l; SmtpExit]
| failed_sendmail e x :
    smtp_connect w = inr () → smtp_starttls w = inr () →
    smtp_login w = inr () → smtp_sendmail w = inl e → smtp_exit w = x →
    session w c l s (inl (leaving e x))
            [c; SmtpStartTLS; l; s; SmtpExit]
| completed x :
    smtp_connect w = inr () → smtp_starttls w = inr () →
    smtp_login w = inr () → smtp_sendmail w = inr () → smtp_exit w = x →
    session w c l s x [c; SmtpStartTLS; l; s; SmtpExit].

(** The messages handed to [sendmail], with sender and recipients. *)
Definition sent_messages (t : list event)
  : list (Py.str * list Py.str * Message) :=
  flat_map (λ ev, match ev with
                  | SmtpSendmail f tos m => [(f, tos, m)]
                  | _ => []
                  end) t.

(** An optional field holding the empty string, read as absent. *)
Definition blank_as_absent (o : option Py.str) : option Py.str :=
  match o with
  | Some [] => None
  | _ => o
  end.

Definition without_blanks (p : ContactSubmission) : ContactSubmission :=
  {| name := name p;
     email := email p;
     phone := blank_as_absent (phone p);
     business := blank_as_absent (business p);
     budget := blank_as_absent (budget p);
     description := description p |}.

(** The number a string of ASCII digits denotes. *)
Definition decimal_value (ds : Py.str) : Z :=
  fold_left (λ v c, (10 * v + Z.of_N (c - 48))%Z) ds 0%Z.

(** Whether the interpreter lets a literal of [n] digits through: the
    limit of [sys.get_int_max_str_digits()] applies to literals of more
    than 640 digits only, and a limit of 0 switches it off. *)
Definition within_digit_limit (rt : Py.runtime) (n : nat) : Prop :=
  (n ≤ 640)%nat ∨ Py.int_max_str_digits rt = 0%nat
  ∨ (n ≤ Py.int_max_str_digits rt)%nat.

(** ** Example requests and worlds *)

Module Examples.

(** An interpreter for the examples.  Its white space above ASCII is
    that of [str.isspace]; of the decimal digits of the Unicode
    database it knows those of four scripts (Arabic-Indic, Extended
    Arabic-Indic, Devanagari, Fullwidth), which is enough for the texts
    used below; the digit limit is the default one. *)
Definition unicode_space (c : N) : bool :=
  (c =? 0x85)%N || (c =? 0xA0)%N || (c =? 0x1680)%N
  || Py.between 0x2000 0x200A c
  || (c =? 0x2028)%N || (c =? 0x2029)%N || (c =? 0x202F)%N
  || (c =? 0x205F)%N || (c =? 0x3000)%N.

Definition unicode_decimal (c : N) : option N :=
  if Py.between 0x0660 0x0669 c then Some (c - 0x0660)%N
  else if Py.between 0x06F0 0x06F9 c then Some (c - 0x06F0)%N
  else if Py.between 0x0966 0x096F c then Some (c - 0x0966)%N
  else if Py.between 0xFF10 0xFF19 c then Some (c - 0xFF10)%N
  else None.

Definition cpython : Py.runtime :=
  {| Py.isspace := unicode_space;
     Py.todecimal := unicode_decimal;
     Py.int_max_str_digits := 4300 |}.

(** A stand-in for the address checker: an address needs an [@]. *)
Definition needs_at_sign (s : Py.str) : option Py.str :=
  if existsb (N.eqb 64) s then Some s else None.

Definition refused (msg : string) {A} : Exception + A :=
  inl {| str_of := Py.lit msg |}.

(** The rendering of a detail fails when a value with a lone surrogate
    is echoed in it, as it is for a [StringUnicode] violation. *)
Definition render_text (detail : list violation) : Exception + () :=
  if existsb (λ v, match v with StringUnicode _ => true | _ => false end) detail
  then refused "'utf-8' codec can't encode character: surrogates not allowed"
  else inr ().

(** Nothing is configured and nothing is reachable. *)
Definition offline : World :=
  {| python := cpython;
     environ := ∅;
     db := None;
     email_syntax := needs_at_sign;
     render_detail := render_text;
     create_document := refused "Database not available";
     smtp_connect := refused "Connection refused";
     smtp_starttls := inr ();
     smtp_login := inr ();
     smtp_sendmail := inr ();
     smtp_exit := inr () |}.

Definition with_environ (env : gmap string Py.str) (w : World) : World :=
  {| python := python w;
     environ := env;
     db := db w;
     email_syntax := email_syntax w;
     render_detail := render_detail w;
     create_document := create_document w;
     smtp_connect := smtp_connect w;
     smtp_starttls := smtp_starttls w;
     smtp_login := smtp_login w;
     smtp_sendmail := smtp_sendmail w;
     smtp_exit := smtp_exit w |}.

Definition with_db (d : option Database) (w : World) : World :=
  {| python := python w;
     environ := environ w;
     db := d;
     email_syntax := email_syntax w;
     render_detail := render_detail w;
     create_document := create_document w;
     smtp_connect := smtp_connect w;
     smtp_starttls := smtp_starttls w;
     smtp_login := smtp_login w;
     smtp_sendmail := smtp_sendmail w;
     smtp_exit := smtp_exit w |}.

(** [offline], with [SMTP_PORT=abc] in the environment. *)
Definition malformed_port : World :=
  with_environ {[ "SMTP_PORT" := Py.lit "abc" ]} offline.

(** Mail is fully configured; the server refuses the connection with
    a message of 200 characters. *)
Definition mail_refused : World :=
  {| python := cpython;
     environ := list_to_map [("SMTP_HOST", Py.lit "mail.example.com");
                             ("SMTP_USER", Py.lit "mailer");
                             ("SMTP_PASS", Py.lit "secret")];
     db := None;
     email_syntax := needs_at_sign;
     render_detail := render_text;
     create_document := inr (Py.lit "65f0c0ffee");
     smtp_connect := inl {| str_of := replicate 200 120%N |};
     smtp_starttls := inr ();
     smtp_login := inr ();
     smtp_sendmail := inr ();
     smtp_exit := inr () |}.

(** The environment names a database, but no handle exists. *)
Definition named_but_absent : World :=
  with_environ (list_to_map [("DATABASE_URL", Py.lit "mongodb://db:27017");
                             ("DATABASE_NAME", Py.lit "kma")]) offline.

(** A handle exists, but listing its collections fails. *)
Definition listing_fails : World :=
  with_db (Some {| db_name := AttrValue (Py.lit "kma");
                   list_collection_names := refused "timed out" |})
          named_but_absent.

(** A handle exists and its listing would return two names, but reading
    its name raises. *)
Definition name_fails : World :=
  with_db (Some {| db_name := AttrRaises {| str_of := Py.lit "not authorized" |};
                   list_collection_names :=
                     inr [Py.lit "contactsubmission"; Py.lit "users"] |})
          named_but_absent.

(** The first scenario of the specification. *)
Definition jo : gmap string json :=
  list_to_map [("name", JString (Py.lit "Jo"));
               ("email", JString (Py.lit "jo@example.com"));
               ("description", JString (Py.lit "Interested in services"))].

Definition jo_payload : ContactSubmission :=
  {| name := Py.lit "Jo";
     email := Py.lit "jo@example.com";
     phone := None; business := None; budget := None;
     description := Py.lit "Interested in services" |}.

(** The second scenario: name and description too short. *)
Definition too_short : gmap string json :=
  list_to_map [("name", JString (Py.lit "A"));
               ("email", JString (Py.lit "a@example.com"));
               ("description", JString (Py.lit "short"))].




(** Mail is fully configured and the server accepts everything. *)
Definition mail_accepted : World :=
  {| python := cpython;
     environ := environ mail_refused;
     db := None;
     email_syntax := needs_at_sign;
     render_detail := render_text;
     create_document := inr (Py.lit "65f0c0ffee");
     smtp_connect := inr ();
     smtp_starttls := inr ();
     smtp_login := inr ();
     smtp_sendmail := inr ();
     smtp_exit := inr () |}.

(** A handle whose listing returns twelve collections. *)
Definition twelve_collections : World :=
  with_db (Some {| db_name := AttrMissing;
                   list_collection_names :=
                     inr (replicate 12 (Py.lit "c")) |})
          offline.

(** [jo] with a member the schema does not declare. *)
Definition jo_with_extra : gmap string json :=
  <["newsletter" := JString (Py.lit "yes")]> jo.

(** [PORT] as the Arabic-Indic digits of 8080. *)
Definition arabic_8080 : Py.str := [0x0668%N; 0x0660%N; 0x0668%N; 0x0660%N].

End Examples.

Import Examples.

(** * Properties *)

(** ** [int] on some port texts *)

Example int_default_port : Py.int cpython (Py.lit "587") = Some 587%Z.
Proof. reflexivity. Qed.

Example int_blanks_sign_underscore :
  Py.int cpython (Py.lit " +2_525 ") = Some 2525%Z.
Proof. reflexivity. Qed.

Example int_letters : Py.int cpython (Py.lit "abc") = None.
Proof. reflexivity. Qed.

Example int_empty : Py.int cpython [] = None.
Proof. reflexivity. Qed.

Example int_doubled_underscore : Py.int cpython (Py.lit "5__87") = None.
Proof. reflexivity. Qed.

Example int_arabic_digits : Py.int cpython arabic_8080 = Some 8080%Z.
Proof. reflexivity. Qed.

(** ASCII texts do not consult the tables of the interpreter. *)
Lemma to_ascii_ascii rt c : (c < 128)%N → Py.to_ascii rt c = c.
Proof.
  intros H. unfold Py.to_ascii. destruct (N.ltb_spec c 128); [done|lia].
Qed.

Lemma int_letters_any rt : Py.int rt (Py.lit "abc") = None.
Proof. reflexivity. Qed.

(** ** Validation *)

Lemma check_str_spec f lo hi v x :
  check_str f lo hi v = inl x ↔ str_violated f lo hi v x.
Proof.
  unfold check_str. split.
  - destruct v as [[|s|]|]; try (intros [= <-]).
    + by eapply str_not_a_string.
    + destruct (Py.has_surrogate s) eqn:Hs.
      { intros [= <-]. by eapply str_not_unicode. }
      destruct (Nat.ltb_spec (length s) lo).
      { intros [= <-]. by eapply str_too_short. }
      destruct hi as [h|]; [|discriminate].
      destruct (Nat.ltb_spec h (length s)); [|discriminate].
      intros [= <-]. by eapply str_too_long.
    + by eapply str_not_a_string.
    + by apply str_missing.
  - intros [->|j -> Hj|s -> Hs|s -> Hs Hl|s h -> Hs Hlo -> Hl].
    + reflexivity.
    + destruct j as [|s|]; [reflexivity|by destruct (Hj s)|reflexivity].
    + by rewrite Hs.
    + rewrite Hs. destruct (Nat.ltb_spec (length s) lo); [reflexivity|lia].
    + rewrite Hs. destruct (Nat.ltb_spec (length s) lo); [lia|].
      destruct (Nat.ltb_spec h (length s)); [reflexivity|lia].
Qed.

Lemma check_email_spec syntax v x :
  check_email "email" syntax v = inl x ↔
  (v = None ∧ x = Missing "email")
  ∨ (∃ j, v = Some j ∧ (∀ s, j ≠ JString s) ∧ x = StringType "email")
  ∨ (∃ s, v = Some (JString s) ∧ syntax s = None ∧ x = InvalidEmail "email").
Proof.
  unfold check_email. split.
  - destruct v as [[|s|]|]; try (intros [= <-]).
    + right; left. by exists JNull.
    + destruct (syntax s) eqn:Es; [discriminate|]. intros [= <-].
      right; right. by exists s.
    + right; left. by exists JOther.
    + by left.
  - intros [[-> ->]|[(j & -> & Hj & ->)|(s & -> & Hs & ->)]].
    + reflexivity.
    + destruct j as [|s|]; [reflexivity|by destruct (Hj s)|reflexivity].
    + by rewrite Hs.
Qed.

Lemma check_optional_spec f v x :
  check_optional f v = inl x ↔ v = Some JOther ∧ x = StringType f.
Proof.
  unfold check_optional. split.
  - destruct v as [[|s|]|]; try discriminate. by intros [= <-].
  - by intros [-> ->].
Qed.

Lemma elem_of_errors_of {A} (r : violation + A) x :
  x ∈ errors_of r ↔ r = inl x.
Proof.
  destruct r as [v|a]; cbn.
  - rewrite list_elem_of_singleton. split; congruence.
  - rewrite elem_of_nil. split; [done|discriminate].
Qed.

(** The violations reported are exactly the violated constraints. *)
Lemma all_violations_spec syntax raw v :
  v ∈ all_violations syntax raw ↔ violated syntax raw v.
Proof.
  unfold all_violations. rewrite !elem_of_app, !elem_of_errors_of.
  rewrite !check_str_spec, check_email_spec, !check_optional_spec. split.
  - intros [H|[H|[H|[H|[H|H]]]]].
    + by apply name_violated.
    + destruct H as [[E ->]|[(j & E & Hj & ->)|(s & E & Hs & ->)]].
      * by apply email_missing.
      * by eapply email_not_a_string.
      * by eapply email_malformed.
    + destruct H as [E ->]. by apply phone_not_a_string.
    + destruct H as [E ->]. by apply business_not_a_string.
    + destruct H as [E ->]. by apply budget_not_a_string.
    + by apply description_violated.
  - intros [x H|E|j E Hj|s E Hs|E|E|E|x H].
    + by left.
    + right; left. by left.
    + right; left. right; left. by exists j.
    + right; left. right; right. by exists s.
    + right; right; left. by split.
    + right; right; right; left. by split.
    + right; right; right; right; left. by split.
    + by repeat right.
Qed.

Lemma parse_rejects syntax raw :
  all_violations syntax raw ≠ [] →
  parse_ContactSubmission syntax raw = inl (all_violations syntax raw).
Proof.
  unfold parse_ContactSubmission, all_violations.
  destruct (check_str "name" _ _ _), (check_email _ _ _),
    (check_optional "phone" _), (check_optional "business" _),
    (check_optional "budget" _), (check_str "description" _ _ _);
    cbn; congruence.
Qed.

Lemma parse_accepts syntax raw :
  all_violations syntax raw = [] →
  ∃ payload, parse_ContactSubmission syntax raw = inr payload.
Proof.
  unfold parse_ContactSubmission, all_violations.
  destruct (check_str "name" _ _ _), (check_email _ _ _),
    (check_optional "phone" _), (check_optional "business" _),
    (check_optional "budget" _), (check_str "description" _ _ _);
    cbn; try congruence.
  intros _. eexists. reflexivity.
Qed.

Lemma parse_detail syntax raw detail :
  parse_ContactSubmission syntax raw = inl detail →
  detail = all_violations syntax raw ∧ detail ≠ [].
Proof.
  unfold parse_ContactSubmission, all_violations.
  destruct (check_str "name" _ _ _), (check_email _ _ _),
    (check_optional "phone" _), (check_optional "business" _),
    (check_optional "budget" _), (check_str "description" _ _ _);
    cbn; intros H; try discriminate H; injection H as <-; by split.
Qed.

Lemma reported_iff_violated syntax raw :
  all_violations syntax raw ≠ [] ↔ ∃ v, violated syntax raw v.
Proof.
  split.
  - intros Hne. destruct (all_violations syntax raw) as [|v l] eqn:E; [done|].
    exists v. apply all_violations_spec. rewrite E. by left.
  - intros [v Hv] Heq. apply all_violations_spec in Hv.
    rewrite Heq in Hv. by apply elem_of_nil in Hv.
Qed.





(** The second scenario of the specification: both violations are
    listed. *)
Example too_short_scenario :
  post_api_contact offline too_short
  = (UnprocessableEntity [StringTooShort "name" 2;
                          StringTooShort "description" 10], []).
Proof. reflexivity. Qed.

(** ** The notifier *)

Lemma truthy_false o : Py.truthy o = false ↔ missing o.
Proof.
  unfold missing. destruct o as [[|c s]|]; cbn; naive_solver.
Qed.

(** The test of the notifier is the negation the specification words
    as a missing setting. *)
Lemma unconfigured_test env :
  negb (Py.truthy (Py.getenv env "SMTP_HOST")
        && Py.truthy (Py.getenv env "SMTP_USER")
        && Py.truthy (Py.getenv env "SMTP_PASS")
        && Py.truthy (Some (Py.getenv_default env "SMTP_FROM"
                              (Py.or_else (Py.getenv env "SMTP_USER") []))))
  = true
  ↔ mail_unconfigured env.
Proof.
  unfold mail_unconfigured, missing, Py.getenv, Py.getenv_default.
  destruct (env !! "SMTP_HOST") as [[|? ?]|];
    destruct (env !! "SMTP_USER") as [[|? ?]|];
    destruct (env !! "SMTP_PASS") as [[|? ?]|];
    destruct (env !! "SMTP_FROM") as [[|? ?]|]; cbn; naive_solver.
Qed.

Lemma configured_test env :
  ¬ mail_unconfigured env →
  negb (Py.truthy (Py.getenv env "SMTP_HOST")
        && Py.truthy (Py.getenv env "SMTP_USER")
        && Py.truthy (Py.getenv env "SMTP_PASS")
        && Py.truthy (Some (Py.getenv_default env "SMTP_FROM"
                              (Py.or_else (Py.getenv env "SMTP_USER") []))))
  = false.
Proof.
  intros H. apply not_true_iff_false. by rewrite unconfigured_test.
Qed.

Lemma unconfigured_or_not env : mail_unconfigured env ∨ ¬ mail_unconfigured env.
Proof.
  destruct (negb (Py.truthy (Py.getenv env "SMTP_HOST")
        && Py.truthy (Py.getenv env "SMTP_USER")
        && Py.truthy (Py.getenv env "SMTP_PASS")
        && Py.truthy (Some (Py.getenv_default env "SMTP_FROM"
                              (Py.or_else (Py.getenv env "SMTP_USER") []))))) eqn:Hc.
  - left. by apply unconfigured_test.
  - right. intros H. apply unconfigured_test in H. congruence.
Qed.

(** With mail configured the three settings are there, and not empty. *)
Lemma configured_settings env :
  ¬ mail_unconfigured env →
  ∃ host user password,
    env !! "SMTP_HOST" = Some host ∧ host ≠ []
    ∧ env !! "SMTP_USER" = Some user ∧ user ≠ []
    ∧ env !! "SMTP_PASS" = Some password ∧ password ≠ []
    ∧ default user (env !! "SMTP_FROM") ≠ [].
Proof.
  unfold mail_unconfigured, missing. intros H.
  destruct (env !! "SMTP_HOST") as [[|? ?]|]; [naive_solver| |naive_solver].
  destruct (env !! "SMTP_USER") as [[|? ?]|]; [naive_solver| |naive_solver].
  destruct (env !! "SMTP_PASS") as [[|? ?]|]; [naive_solver| |naive_solver].
  eexists _, _, _. repeat split; try done.
  destruct (env !! "SMTP_FROM") as [[|? ?]|]; [naive_solver|done|done].
Qed.

(** *** What [MIMEText] can encode *)

Lemma has_surrogate_app a b :
  Py.has_surrogate (a ++ b) = Py.has_surrogate a || Py.has_surrogate b.
Proof. apply existsb_app. Qed.

Lemma or_else_surrogate o :
  Py.has_surrogate (Py.or_else o (Py.lit "N/A"))
  = Py.has_surrogate (default [] o).
Proof. by destruct o as [[|? ?]|]. Qed.

(** The body holds a lone surrogate exactly when one of the five
    fields it shows does. *)
Lemma body_surrogate p :
  Py.has_surrogate (body_text p)
  = Py.has_surrogate (name p) || Py.has_surrogate (email p)
    || Py.has_surrogate (default [] (phone p))
    || Py.has_surrogate (default [] (business p))
    || Py.has_surrogate (default [] (budget p)).
Proof.
  unfold body_text. rewrite !has_surrogate_app, !or_else_surrogate.
  destruct (Py.has_surrogate (name p)), (Py.has_surrogate (email p)),
    (Py.has_surrogate (default [] (phone p))),
    (Py.has_surrogate (default [] (business p))),
    (Py.has_surrogate (default [] (budget p))); reflexivity.
Qed.

Lemma encodable_body p : encodable p ↔ Py.has_surrogate (body_text p) = false.
Proof.
  unfold encodable, well_formed. rewrite body_surrogate, !orb_false_iff.
  naive_solver.
Qed.

Lemma encodable_or_not p : encodable p ∨ ¬ encodable p.
Proof.
  rewrite encodable_body. destruct (Py.has_surrogate (body_text p)); [right|left]; done.
Qed.

(** *** The four ways the notifier can run *)

(** A port text that [int] refuses leaves the notifier as a
    [ValueError], before the configuration is looked at. *)
Lemma send_malformed_port w payload t :
  Py.int (python w) (port_text (environ w)) = None →
  _send_confirmation_email w payload t
  = (inl (InvalidLiteral (port_text (environ w))), t ++ [Notify payload]).
Proof.
  intros Hp. unfold _send_confirmation_email, bind, enter, lift_option.
  unfold port_text in Hp. rewrite Hp. reflexivity.
Qed.

(** The handler stores, then notifies; only the notifier can make it
    raise. *)
Lemma submit_contact_unfold w payload t :
  submit_contact w payload t
  = match _send_confirmation_email w payload (t ++ [persist_call payload]) with
    | (inr d, t') => (inr (success_body w d), t')
    | (inl e, t') => (inl e, t')
    end.
Proof.
  unfold submit_contact, bind, try_except, call, ret, success_body, stored_id.
  destruct (create_document w); reflexivity.
Qed.

Section WellFormedPort.

Variables (w : World) (port : Z).
Hypothesis port_ok : Py.int (python w) (port_text (environ w)) = Some port.

Lemma send_unconfigured payload t :
  mail_unconfigured (environ w) →
  _send_confirmation_email w payload t
  = (inr not_configured, t ++ [Notify payload]).
Proof using port_ok.
  intros Hc. apply unconfigured_test in Hc.
  unfold _send_confirmation_email, bind, enter, lift_option.
  unfold port_text in port_ok. rewrite port_ok. cbn beta iota zeta.
  unfold ret at 1. cbn beta iota. rewrite Hc. reflexivity.
Qed.

(** With mail configured, a message that cannot be encoded leaves the
    notifier as a [UnicodeEncodeError], before any call to the
    server. *)
Lemma send_unencodable payload t :
  ¬ mail_unconfigured (environ w) →
  ¬ encodable payload →
  _send_confirmation_email w payload t
  = (inl (UnicodeEncodeError (body_text payload)), t ++ [Notify payload]).
Proof using port_ok.
  intros Hc He. apply configured_test in Hc.
  rewrite encodable_body in He. apply not_false_is_true in He.
  unfold _send_confirmation_email, bind, enter, lift_option.
  unfold port_text in port_ok. rewrite port_ok. cbn beta iota zeta.
  unfold ret at 1. cbn beta iota. rewrite Hc.
  unfold MIMEText. rewrite He. reflexivity.
Qed.

(** With mail configured and a message that can be encoded: the
    session runs with the settings of the environment and a message
    from the resolved sender to the address of the submission, and its
    answer decides the result. *)
Lemma send_configured payload t host user password :
  ¬ mail_unconfigured (environ w) →
  encodable payload →
  environ w !! "SMTP_HOST" = Some host →
  environ w !! "SMTP_USER" = Some user →
  environ w !! "SMTP_PASS" = Some password →
  ∃ msg r log,
    msg_from msg = default user (environ w !! "SMTP_FROM")
    ∧ msg_to msg = email payload
    ∧ session w (SmtpConnect host port) (SmtpLogin user password)
        (SmtpSendmail (default user (environ w !! "SMTP_FROM"))
           [email payload] msg) r log
    ∧ _send_confirmation_email w payload t
      = (inr (sent_result r), t ++ Notify payload :: log).
Proof using port_ok.
  intros Hc He Hh Hu Hpw.
  destruct (configured_settings _ Hc) as (h & u & pw & Hh' & _ & Hu' & Hune & Hpw' & _).
  rewrite Hh in Hh'. rewrite Hu in Hu'. rewrite Hpw in Hpw'.
  injection Hh' as <-. injection Hu' as <-. injection Hpw' as <-.
  apply configured_test in Hc. rewrite encodable_body in He.
  unfold _send_confirmation_email, bind, enter, lift_option.
  unfold port_text in port_ok. rewrite port_ok. cbn beta iota zeta.
  unfold ret at 1. cbn beta iota. rewrite Hc.
  unfold MIMEText. rewrite He. cbn beta iota.
  unfold Py.getenv, Py.getenv_default. rewrite Hh, Hu, Hpw.
  assert (Py.or_else (Some user) [] = user) as -> by (by destruct user).
  cbn [default].
  unfold try_except, with_SMTP, bind, call, ret.
  match goal with |- context [SmtpSendmail _ _ ?m] => exists m end.
  destruct (smtp_connect w) as [e|[]] eqn:H1.
  { eexists (inl e), _. split_and!; revgoals;
      [rewrite <- ?app_assoc; reflexivity
      |by apply refused_connection|reflexivity|reflexivity]. }
  destruct (smtp_starttls w) as [e|[]] eqn:H2.
  { eexists (inl (leaving e (smtp_exit w))), _. split_and!; revgoals;
      [destruct (smtp_exit w) as [?|[]]; rewrite <- ?app_assoc; reflexivity
      |by eapply failed_starttls|reflexivity|reflexivity]. }
  destruct (smtp_login w) as [e|[]] eqn:H3.
  { eexists (inl (leaving e (smtp_exit w))), _. split_and!; revgoals;
      [destruct (smtp_exit w) as [?|[]]; rewrite <- ?app_assoc; reflexivity
      |by eapply failed_login|reflexivity|reflexivity]. }
  destruct (smtp_sendmail w) as [e|[]] eqn:H4.
  { eexists (inl (leaving e (smtp_exit w))), _. split_and!; revgoals;
      [destruct (smtp_exit w) as [?|[]]; rewrite <- ?app_assoc; reflexivity
      |by eapply failed_sendmail|reflexivity|reflexivity]. }
  eexists (smtp_exit w), _. split_and!; revgoals;
    [destruct (smtp_exit w) as [?|[]]; rewrite <- ?app_assoc; reflexivity
    |by eapply completed|reflexivity|reflexivity].
Qed.

End WellFormedPort.

(** The four ways the notifier can run, as a case analysis. *)
Ltac notifier_cases w payload t :=
  let port := fresh "port" in
  let Hport := fresh "Hport" in
  let Hunc := fresh "Hunc" in
  let Hconf := fresh "Hconf" in
  let Henc := fresh "Henc" in
  destruct (Py.int (python w) (port_text (environ w))) as [port|] eqn:Hport;
  [ destruct (unconfigured_or_not (environ w)) as [Hunc|Hconf];
    [ rewrite (send_unconfigured w port Hport payload t Hunc)
    | destruct (encodable_or_not payload) as [Henc|Henc];
      [ let host := fresh "host" in
        let user := fresh "user" in
        let password := fresh "password" in
        let msg := fresh "msg" in
        let r := fresh "r" in
        let log := fresh "log" in
        let Hh := fresh "Hh" in
        let Hu := fresh "Hu" in
        let Hpw := fresh "Hpw" in
        let Hfrom := fresh "Hfrom" in
        let Hmf := fresh "Hmf" in
        let Hmt := fresh "Hmt" in
        let Hses := fresh "Hses" in
        destruct (configured_settings _ Hconf)
          as (host & user & password & Hh & _ & Hu & _ & Hpw & _ & Hfrom);
        destruct (send_configured w port Hport payload t host user password
                    Hconf Henc Hh Hu Hpw)
          as (msg & r & log & Hmf & Hmt & Hses & ->)
      | rewrite (send_unencodable w port Hport payload t Hconf Henc) ] ]
  | rewrite (send_malformed_port w payload t Hport) ].

(** Membership in a log written out, one event at a time. *)
Ltac in_log H :=
  repeat (apply elem_of_cons in H as [H|H]; [try discriminate H|]);
  try (by apply elem_of_nil in H).

(** What leaves the session is the exception the specification calls
    the transport failure. *)
Lemma session_failure w c l s r log e :
  session w c l s r log → transport_failure w e → r = inl e.
Proof.
  intros [e1 H1|e1 x H1 H2 H5|e1 x H1 H2 H3 H5|e1 x H1 H2 H3 H4 H5
         |x H1 H2 H3 H4 H5]
         [e2 G1|e2 G1 G2 G5|e2 G1 G2 G3 G5|e2 G1 G2 G3 G4 G5|e2 G1 G5];
    try congruence; subst x; rewrite G5; cbn [leaving]; congruence.
Qed.

Lemma session_is_smtp w c l s r log :
  session w c l s r log →
  is_smtp c = true → is_smtp l = true → is_smtp s = true →
  Forall (λ ev, is_smtp ev = true) log.
Proof. intros [] Hc Hl Hs; by repeat constructor. Qed.

(** Whenever the notifier returns, it returns one of its three
    dicts. *)
Lemma send_result_forms w payload t d t' :
  _send_confirmation_email w payload t = (inr d, t') →
  d = not_configured ∨ d = dict [("sent", VBool true)] ∨ ∃ e, d = not_sent e.
Proof.
  notifier_cases w payload t; intros [= <- <-]; [by left|].
  destruct r as [e|[]]; [right; right; by exists e|right; by left].
Qed.

Section WellFormedPortAndMessage.

Variables (w : World) (port : Z) (payload : ContactSubmission).
Hypothesis port_ok : Py.int (python w) (port_text (environ w)) = Some port.
Hypothesis message_ok : mail_unconfigured (environ w) ∨ encodable payload.

(** The notifier returns one of its three dicts, and its entry is
    logged. *)
Lemma send_returns t :
  ∃ d s, _send_confirmation_email w payload t = (inr d, t ++ s)
         ∧ Notify payload ∈ s
         ∧ (d = not_configured ∨ d = dict [("sent", VBool true)]
            ∨ ∃ e, d = not_sent e).
Proof using port_ok message_ok.
  destruct (unconfigured_or_not (environ w)) as [Hunc|Hconf].
  - exists not_configured, [Notify payload].
    split; [by eapply send_unconfigured|]. split; [set_solver|by left].
  - destruct message_ok as [?|Henc]; [done|].
    destruct (configured_settings _ Hconf)
      as (host & user & password & Hh & _ & Hu & _ & Hpw & _).
    destruct (send_configured w port port_ok payload t host user password
                Hconf Henc Hh Hu Hpw)
      as (msg & r & log & _ & _ & _ & Hs).
    eexists _, _. split; [exact Hs|]. split; [set_solver|].
    eapply send_result_forms, Hs.
Qed.

(** ** The handler *)

(** With a port text [int] accepts, and mail unconfigured or a message
    that can be encoded, the handler returns the success body,
    whatever the store and the mail server answer, and both steps have
    been attempted. *)
Lemma submit_contact_succeeds :
  ∃ email_result t,
    submit_contact w payload [] = (inr (success_body w email_result), t)
    ∧ persist_call payload ∈ t
    ∧ Notify payload ∈ t.
Proof using port_ok message_ok.
  destruct (send_returns ([] ++ [persist_call payload]))
    as (d & s & Hs & Hin & _).
  exists d, (([] ++ [persist_call payload]) ++ s).
  rewrite submit_contact_unfold, Hs. split; [reflexivity|]. set_solver.
Qed.

(** A failing store leaves [None] as the identifier and does not
    stop the request. *)
Lemma persistence_failure_tolerated e :
  create_document w = inl e →
  ∃ body t,
    submit_contact w payload [] = (inr body, t)
    ∧ body !! "ok" = Some (VBool true)
    ∧ body !! "id" = Some VNone
    ∧ Notify payload ∈ t.
Proof using port_ok message_ok.
  intros He. destruct submit_contact_succeeds as (d & t & Hs & _ & Hn).
  exists (success_body w d), t. split; [exact Hs|].
  unfold success_body, stored_id. rewrite He. by repeat split.
Qed.

(** The flag and the acknowledgment are in every success body. *)
Lemma acknowledgment_returned :
  ∃ body t,
    submit_contact w payload [] = (inr body, t)
    ∧ body !! "ok" = Some (VBool true)
    ∧ body !! "message" = Some (VStr acknowledgment).
Proof using port_ok message_ok.
  destruct submit_contact_succeeds as (d & t & Hs & _).
  exists (success_body w d), t. split; [exact Hs|]. by split.
Qed.

End WellFormedPortAndMessage.

(** A port text that [int] refuses makes the handler raise, after the
    store has been called. *)
Lemma submit_contact_raises w payload t :
  Py.int (python w) (port_text (environ w)) = None →
  submit_contact w payload t
  = (inl (InvalidLiteral (port_text (environ w))),
     (t ++ [persist_call payload]) ++ [Notify payload]).
Proof.
  intros Hp. by rewrite submit_contact_unfold, send_malformed_port.
Qed.

(** The acknowledgment has 65 code points, the eleventh of which is the
    right single quotation mark. *)
Example acknowledgment_text :
  length acknowledgment = 65 ∧ acknowledgment !! 10 = Some 0x2019%N.
Proof. split; reflexivity. Qed.

(** The first scenario of the specification, with the reason the code
    gives. *)
Example jo_scenario :
  post_api_contact offline jo
  = (Ok200 (dict [("ok", VBool true);
                  ("id", VNone);
                  ("email", VDict (dict [("sent", VBool false);
                                         ("reason", VStr (Py.lit "SMTP not configured"))]));
                  ("message", VStr acknowledgment)]),
     [persist_call jo_payload; Notify jo_payload]).
Proof. reflexivity. Qed.

(** *** Claims about the submission flow *)

(** C1. The notifier applies [int] to the text of [SMTP_PORT] before it
    looks at the configuration and outside its [try] block.  For the
    valid body [jo] in a world whose environment holds [SMTP_PORT=abc],
    the [ValueError] leaves the notifier and the handler, and the
    request ends as an unhandled fault instead of a success response. *)
Theorem malformed_port_escapes_handler :
  parse_ContactSubmission (email_syntax malformed_port) jo = inr jo_payload
  ∧ submit_contact malformed_port jo_payload []
    = (inl (InvalidLiteral (Py.lit "abc")),
       [persist_call jo_payload; Notify jo_payload])
  ∧ post_api_contact malformed_port jo
    = (InternalServerError, [persist_call jo_payload; Notify jo_payload]).
Proof. repeat split; reflexivity. Qed.

(** C3. In the world [malformed_port] the store raises and the body
    [jo] is valid; the notifier is entered, but the response is the
    unhandled fault, so it has neither [ok] nor [id]. *)
Theorem persistence_failure_malformed_port :
  (∃ e, create_document malformed_port = inl e)
  ∧ fst (post_api_contact malformed_port jo) = InternalServerError
  ∧ member (fst (post_api_contact malformed_port jo)) "ok" = None
  ∧ member (fst (post_api_contact malformed_port jo)) "id" = None
  ∧ Notify jo_payload ∈ snd (post_api_contact malformed_port jo).
Proof.
  split; [by eexists|]. repeat split; try reflexivity.
  change (snd (post_api_contact malformed_port jo))
    with [persist_call jo_payload; Notify jo_payload].
  set_solver.
Qed.

(** C4, as the specification words it, fails: with nothing configured
    the notifier does not return the reason ["not configured"]. *)
Lemma not_configured_reason_differs :
  missing (environ offline !! "SMTP_HOST")
  ∧ parse_ContactSubmission (email_syntax offline) jo = inr jo_payload
  ∧ fst (_send_confirmation_email offline jo_payload [])
    ≠ inr (dict [("sent", VBool false);
                 ("reason", VStr (Py.lit "not configured"))]).
Proof.
  split; [by left|]. split; [reflexivity|].
  assert (fst (_send_confirmation_email offline jo_payload [])
          = inr not_configured) as -> by reflexivity.
  intros H.
  apply (f_equal (λ r : ValueError + gmap string value,
                    match r with
                    | inr d => d !! "reason"
                    | inl _ => None
                    end)) in H.
  vm_compute in H. discriminate H.
Qed.

(** C4, amended. When host, user, credential or from-address is missing
    and the text of [SMTP_PORT] is absent or one [int] accepts, the
    notifier returns [{sent: False, reason: "SMTP not configured"}]
    having logged nothing but its own entry, so without a call to the
    SMTP server, and the request of a valid body succeeds with
    [ok == True]. *)
Theorem unconfigured_mail_reported w raw payload port :
  parse_ContactSubmission (email_syntax w) raw = inr payload →
  Py.int (python w) (port_text (environ w)) = Some port →
  mail_unconfigured (environ w) →
  (∀ t, _send_confirmation_email w payload t
        = (inr (dict [("sent", VBool false);
                      ("reason", VStr (Py.lit "SMTP not configured"))]),
           t ++ [Notify payload]))
  ∧ (∃ body,
       post_api_contact w raw
       = (Ok200 body, [persist_call payload; Notify payload])
       ∧ body !! "ok" = Some (VBool true)
       ∧ body !! "email"
         = Some (VDict (dict [("sent", VBool false);
                              ("reason", VStr (Py.lit "SMTP not configured"))]))).
Proof.
  intros Hv Hp Hc. split.
  - intros t. by eapply send_unconfigured.
  - exists (success_body w not_configured).
    unfold post_api_contact. rewrite Hv, submit_contact_unfold.
    rewrite (send_unconfigured w port Hp payload _ Hc). by repeat split.
Qed.

Lemma unconfigured_mail_reported_witness :
  (∀ t, _send_confirmation_email offline jo_payload t
        = (inr (dict [("sent", VBool false);
                      ("reason", VStr (Py.lit "SMTP not configured"))]),
           t ++ [Notify jo_payload]))
  ∧ (∃ body,
       post_api_contact offline jo
       = (Ok200 body, [persist_call jo_payload; Notify jo_payload])
       ∧ body !! "ok" = Some (VBool true)
       ∧ body !! "email"
         = Some (VDict (dict [("sent", VBool false);
                              ("reason", VStr (Py.lit "SMTP not configured"))]))).
Proof.
  apply (unconfigured_mail_reported offline jo jo_payload 587).
  - reflexivity.
  - reflexivity.
  - left. by left.
Defined.

(** C5. For the valid body [jo] in the world [malformed_port] the
    response carries no acknowledgment: it is the unhandled fault of
    the notifier, not a success body. *)
Theorem acknowledgment_lost_on_malformed_port :
  parse_ContactSubmission (email_syntax malformed_port) jo = inr jo_payload
  ∧ member (fst (post_api_contact malformed_port jo)) "message" = None
  ∧ member (fst (post_api_contact offline jo)) "message"
    = Some (VStr acknowledgment).
Proof. repeat split; reflexivity. Qed.

(** C7. Whenever the transport is attempted, that is with a port text
    [int] accepts, mail configured and a message that can be encoded,
    and an exception leaves the SMTP session (connection, TLS,
    authentication, sending or closing), the notifier returns
    [{sent: False, reason: r}] where [r] is the first 120 code points
    of the text of the exception; [r] never has more than 120 code
    points, however long that text is. *)
Theorem failure_reason_truncated w payload port e t :
  Py.int (python w) (port_text (environ w)) = Some port →
  ¬ mail_unconfigured (environ w) →
  encodable payload →
  transport_failure w e →
  ∃ t' result reason,
    _send_confirmation_email w payload t = (inr result, t')
    ∧ result !! "sent" = Some (VBool false)
    ∧ result !! "reason" = Some (VStr reason)
    ∧ reason = take 120 (str_of e)
    ∧ (length reason ≤ 120)%nat.
Proof.
  intros Hp Hc Henc Hf.
  destruct (configured_settings _ Hc)
    as (host & user & password & Hh & _ & Hu & _ & Hpw & _).
  destruct (send_configured w port Hp payload t host user password
              Hc Henc Hh Hu Hpw)
    as (msg & r & log & _ & _ & Hses & Hs).
  rewrite (session_failure _ _ _ _ _ _ _ Hses Hf) in Hs.
  eexists _, (not_sent e), (take 120 (str_of e)).
  split; [exact Hs|]. repeat split. rewrite length_take. lia.
Qed.

Lemma failure_reason_truncated_witness :
  ∃ t' result reason,
    _send_confirmation_email mail_refused jo_payload [] = (inr result, t')
    ∧ result !! "sent" = Some (VBool false)
    ∧ result !! "reason" = Some (VStr reason)
    ∧ reason = take 120 (str_of {| str_of := replicate 200 120%N |})
    ∧ (length reason ≤ 120)%nat.
Proof.
  apply (failure_reason_truncated mail_refused jo_payload 587).
  - reflexivity.
  - intros [H|[H|[H|H]]]; vm_compute in H;
      try destruct H as [H|H]; discriminate H.
  - by repeat split.
  - apply connect_fails. reflexivity.
Defined.

(** The transport is attempted only under these three conditions: a
    connect call in the log of the notifier means that [int] accepted
    the port text, that mail is configured and that the message could
    be encoded. *)
Lemma transport_attempted w payload host port :
  SmtpConnect host port ∈ snd (_send_confirmation_email w payload []) →
  Py.int (python w) (port_text (environ w)) = Some port
  ∧ ¬ mail_unconfigured (environ w)
  ∧ encodable payload.
Proof.
  notifier_cases w payload (@nil event); cbn [snd app]; intros H.
  - in_log H.
  - destruct Hses as [e H1|e x H1 H2 H5|e x H1 H2 H3 H5|e x H1 H2 H3 H4 H5
                     |x H1 H2 H3 H4 H5];
      in_log H; by injection H as -> ->.
  - in_log H.
  - in_log H.
Qed.

(** The reason of the example is cut: 120 of the 200 code points. *)
Example mail_refused_scenario :
  fst (_send_confirmation_email mail_refused jo_payload [])
  = inr (dict [("sent", VBool false);
               ("reason", VStr (replicate 120 120%N))]).
Proof. vm_compute. reflexivity. Qed.

(** C10. Two runs on the same valid body [jo], in worlds that differ
    only in the text of [SMTP_PORT]: one response has [ok] and
    [message], the other has neither. *)
Theorem ok_and_message_vary_with_port_text :
  malformed_port = with_environ {[ "SMTP_PORT" := Py.lit "abc" ]} offline
  ∧ member (fst (post_api_contact offline jo)) "ok" = Some (VBool true)
  ∧ member (fst (post_api_contact malformed_port jo)) "ok" = None
  ∧ member (fst (post_api_contact offline jo)) "message"
    ≠ member (fst (post_api_contact malformed_port jo)) "message".
Proof.
  split; [reflexivity|]. split; [reflexivity|]. split; [reflexivity|].
  intros H. vm_compute in H. discriminate H.
Qed.

(** On runs whose port text [int] accepts, with mail unconfigured or
    a message that can be encoded, [ok] and [message] do not depend on
    the world or on the body. *)
Lemma ok_and_message_constant w1 w2 raw1 raw2 payload1 payload2 port1 port2 :
  parse_ContactSubmission (email_syntax w1) raw1 = inr payload1 →
  parse_ContactSubmission (email_syntax w2) raw2 = inr payload2 →
  Py.int (python w1) (port_text (environ w1)) = Some port1 →
  Py.int (python w2) (port_text (environ w2)) = Some port2 →
  mail_unconfigured (environ w1) ∨ encodable payload1 →
  mail_unconfigured (environ w2) ∨ encodable payload2 →
  member (fst (post_api_contact w1 raw1)) "ok"
  = member (fst (post_api_contact w2 raw2)) "ok"
  ∧ member (fst (post_api_contact w1 raw1)) "message"
    = member (fst (post_api_contact w2 raw2)) "message"
  ∧ member (fst (post_api_contact w1 raw1)) "ok" = Some (VBool true)
  ∧ member (fst (post_api_contact w1 raw1)) "message"
    = Some (VStr acknowledgment).
Proof.
  intros Hv1 Hv2 Hp1 Hp2 Hm1 Hm2. unfold post_api_contact. rewrite Hv1, Hv2.
  destruct (submit_contact_succeeds w1 port1 payload1 Hp1 Hm1) as (d1 & t1 & -> & _).
  destruct (submit_contact_succeeds w2 port2 payload2 Hp2 Hm2) as (d2 & t2 & -> & _).
  by repeat split.
Qed.


(** ** The diagnostic endpoint *)

(** *** Shape of the diagnostic response *)

Lemma test_database_no_handle w :
  db w = None →
  test_database w
  = <["database" := VStr ([0x26A0%N; 0xFE0F%N]
                          ++ Py.lit " Available but not initialized")]>
      initial_response.
Proof.
  intros Hd. unfold test_database, try_except. rewrite Hd. reflexivity.
Qed.

Lemma test_database_name_raises w d e :
  db w = Some d → db_name d = AttrRaises e →
  test_database w
  = <["database" := VStr (probe_error e)]>
      (<["database_url" := VStr (url_status (environ w))]> initial_response).
Proof.
  intros Hd Hn. unfold test_database, try_except, bind. rewrite Hd.
  cbn. rewrite Hn. cbn. unfold url_status, Py.getenv.
  destruct (Py.truthy _); reflexivity.
Qed.

Lemma test_database_listing_raises w d nm e :
  db w = Some d → resolved_name (environ w) d nm →
  list_collection_names d = inl e →
  test_database w
  = <["database" := VStr (listing_error e)]>
      (<["database_name" := VStr nm]>
         (<["database_url" := VStr (url_status (environ w))]> initial_response)).
Proof.
  intros Hd Hn Hl. unfold test_database, list_collections, try_except, bind.
  rewrite Hd. cbn. unfold url_status, Py.getenv.
  destruct Hn as [v Hv | Hm]; [rewrite Hv | rewrite Hm]; cbn; rewrite Hl; cbn;
    destruct (Py.truthy _); reflexivity.
Qed.

Lemma test_database_listing_returns w d nm names :
  db w = Some d → resolved_name (environ w) d nm →
  list_collection_names d = inr names →
  test_database w
  = dict [("backend", VStr (0x2705%N :: Py.lit " Running"));
          ("database", VStr (0x2705%N :: Py.lit " Connected & Working"));
          ("database_url", VStr (url_status (environ w)));
          ("database_name", VStr nm);
          ("connection_status", VStr (Py.lit "Connected"));
          ("collections", VList (take 10 names))].
Proof.
  intros Hd Hn Hl. unfold test_database, list_collections, try_except, bind.
  rewrite Hd. cbn. unfold url_status, Py.getenv.
  destruct Hn as [v Hv | Hm]; [rewrite Hv | rewrite Hm]; cbn; rewrite Hl; cbn;
    destruct (Py.truthy _); reflexivity.
Qed.

(** Reading the name either raises or resolves. *)
Lemma name_raises_or_resolves env d :
  (∃ e, db_name d = AttrRaises e) ∨ (∃ nm, resolved_name env d nm).
Proof.
  destruct (db_name d) as [|v|e] eqn:Hn.
  - right. eexists. by apply name_of_environment.
  - right. exists v. by apply name_of_handle.
  - left. by exists e.
Qed.

Lemma diagnostic_cases w : diagnostic_case w.
Proof.
  destruct (db w) as [d|] eqn:Hd; [|by apply no_handle].
  destruct (name_raises_or_resolves (environ w) d) as [[e He]|[nm Hnm]].
  - by eapply name_raises.
  - destruct (list_collection_names d) as [e|names] eqn:Hl.
    + by eapply listing_raises.
    + by eapply listing_returns.
Qed.

(** C6, as stated, fails: the failure of a probe is not confined to
    the field of that probe.  When the listing raises, [collections]
    does not hold an error string but stays the empty list, and it is
    [database] that takes the error.  When reading the name raises,
    [database_name] keeps its initial text, [database] takes the error,
    and the listing, which would have returned two names, is not run. *)
Lemma probe_failure_not_confined :
  (∀ s, test_database listing_fails !! "collections" ≠ Some (VStr s))
  ∧ test_database listing_fails !! "collections" = Some (VList [])
  ∧ test_database listing_fails !! "database"
    = Some (VStr (listing_error {| str_of := Py.lit "timed out" |}))
  ∧ (∃ d, db name_fails = Some d
          ∧ db_name d = AttrRaises {| str_of := Py.lit "not authorized" |}
          ∧ list_collection_names d
            = inr [Py.lit "contactsubmission"; Py.lit "users"])
  ∧ test_database name_fails !! "database_name"
    = Some (VStr (0x274C%N :: Py.lit " Not Set"))
  ∧ test_database name_fails !! "database"
    = Some (VStr (probe_error {| str_of := Py.lit "not authorized" |}))
  ∧ test_database name_fails !! "collections" = Some (VList [])
  ∧ test_database name_fails !! "connection_status"
    = Some (VStr (Py.lit "Not Connected")).
Proof.
  split_and!; try reflexivity.
  - intros s H. discriminate H.
  - eexists. by split_and!.
Qed.

(** C6, amended. [GET /test] always answers with the full diagnostic
    object: its keys are the six declared ones and [collections] is a
    list of at most 10 names.  A probe that raises never fails the
    endpoint, and its exception is turned into an error string that is
    always stored in [database].  When reading the name of the handle
    raises, the listing is skipped and, apart from [database] and the
    [database_url] set before, the response is the initial one; when
    the listing raises, the response is the initial one apart from
    [database] and the [database_url] and [database_name] set before. *)
Theorem test_database_degrades w :
  dom (test_database w) = diagnostic_keys
  ∧ (∃ names, test_database w !! "collections" = Some (VList names)
              ∧ (length names ≤ 10)%nat)
  ∧ (∀ d e, db w = Some d → db_name d = AttrRaises e →
       test_database w
       = <["database" := VStr (probe_error e)]>
           (<["database_url" := VStr (url_status (environ w))]>
              initial_response))
  ∧ (∀ d nm e, db w = Some d → resolved_name (environ w) d nm →
       list_collection_names d = inl e →
       test_database w
       = <["database" := VStr (listing_error e)]>
           (<["database_name" := VStr nm]>
              (<["database_url" := VStr (url_status (environ w))]>
                 initial_response))).
Proof.
  split; [|split; [|split]].
  - destruct (diagnostic_cases w) as [Hd|d e Hd Hn|d nm e Hd Hn Hl|d nm ns Hd Hn Hl].
    + rewrite (test_database_no_handle w Hd). reflexivity.
    + rewrite (test_database_name_raises w d e Hd Hn). reflexivity.
    + rewrite (test_database_listing_raises w d nm e Hd Hn Hl). reflexivity.
    + rewrite (test_database_listing_returns w d nm ns Hd Hn Hl). reflexivity.
  - destruct (diagnostic_cases w) as [Hd|d e Hd Hn|d nm e Hd Hn Hl|d nm ns Hd Hn Hl].
    + rewrite (test_database_no_handle w Hd). exists []. split; [reflexivity|cbn; lia].
    + rewrite (test_database_name_raises w d e Hd Hn). exists []. split; [reflexivity|cbn; lia].
    + rewrite (test_database_listing_raises w d nm e Hd Hn Hl). exists []. split; [reflexivity|cbn; lia].
    + rewrite (test_database_listing_returns w d nm ns Hd Hn Hl). exists (take 10 ns).
      split; [reflexivity|]. rewrite length_take. lia.
  - apply test_database_name_raises.
  - apply test_database_listing_raises.
Qed.

Lemma test_database_degrades_witness :
  test_database listing_fails
  = <["database" := VStr (listing_error {| str_of := Py.lit "timed out" |})]>
      (<["database_name" := VStr (Py.lit "kma")]>
         (<["database_url" := VStr (0x2705%N :: Py.lit " Set")]>
            initial_response)).
Proof.
  destruct (test_database_degrades listing_fails) as (_ & _ & _ & H).
  eapply H; [reflexivity | apply name_of_handle; reflexivity | reflexivity].
Defined.

(** C8. Without a database handle the response shows [database_url]
    and [database_name] as not set, whatever the environment holds: the
    environment is read only on the branch where a handle exists. *)
Theorem environment_unread_without_handle w :
  db w = None →
  test_database w !! "database_url" = Some (VStr (0x274C%N :: Py.lit " Not Set"))
  ∧ test_database w !! "database_name" = Some (VStr (0x274C%N :: Py.lit " Not Set")).
Proof.
  intros Hd. rewrite (test_database_no_handle w Hd). split; reflexivity.
Qed.

Lemma environment_unread_without_handle_witness :
  Py.truthy (environ named_but_absent !! "DATABASE_URL") = true
  ∧ Py.truthy (environ named_but_absent !! "DATABASE_NAME") = true
  ∧ test_database named_but_absent !! "database_url"
    = Some (VStr (0x274C%N :: Py.lit " Not Set"))
  ∧ test_database named_but_absent !! "database_name"
    = Some (VStr (0x274C%N :: Py.lit " Not Set")).
Proof.
  split; [reflexivity|]. split; [reflexivity|].
  apply (environment_unread_without_handle named_but_absent). reflexivity.
Defined.

(** C9. When a handle exists and listing its collections raises, the
    listing step changes nothing but [database], whatever the response
    held when it started; in the response of [GET /test] the field
    [database] holds the error string, [connection_status] is still
    ["Not Connected"] and [collections] is still empty, and every other
    field is what it was when the listing started.  (The listing is
    reached only when reading [db.name] has not raised, which is what
    [resolved_name] says.) *)
Theorem listing_failure_frame w d nm e :
  db w = Some d →
  resolved_name (environ w) d nm →
  list_collection_names d = inl e →
  (∀ r : gmap string value,
     list_collections (E := Empty_set) d r
     = (inr (), <["database" := VStr (listing_error e)]> r))
  ∧ test_database w !! "database" = Some (VStr (listing_error e))
  ∧ test_database w !! "connection_status" = Some (VStr (Py.lit "Not Connected"))
  ∧ test_database w !! "collections" = Some (VList [])
  ∧ test_database w !! "connection_status" = initial_response !! "connection_status"
  ∧ test_database w !! "collections" = initial_response !! "collections"
  ∧ (∀ k, k ≠ "database" →
       test_database w !! k
       = (<["database_name" := VStr nm]>
            (<["database_url" := VStr (url_status (environ w))]>
               initial_response)) !! k).
Proof.
  intros Hd Hn Hl.
  split.
  { intros r. unfold list_collections, try_except, bind, lift_sum.
    rewrite Hl. reflexivity. }
  rewrite (test_database_listing_raises w d nm e Hd Hn Hl).
  repeat split; try reflexivity.
  intros k Hk. by rewrite lookup_insert_ne.
Qed.

Lemma listing_failure_frame_witness :
  test_database listing_fails !! "database"
  = Some (VStr ([0x26A0%N; 0xFE0F%N] ++ Py.lit " Connected but Error: timed out"))
  ∧ test_database listing_fails !! "connection_status"
    = Some (VStr (Py.lit "Not Connected"))
  ∧ test_database listing_fails !! "collections" = Some (VList []).
Proof.
  destruct (listing_failure_frame listing_fails
              {| db_name := AttrValue (Py.lit "kma");
                 list_collection_names := refused "timed out" |}
              (Py.lit "kma") {| str_of := Py.lit "timed out" |})
    as (_ & Hdb & Hcs & Hcl & _).
  - reflexivity.
  - apply name_of_handle. reflexivity.
  - reflexivity.
  - split; [exact Hdb|]. split; [exact Hcs | exact Hcl].
Defined.


(** * Further properties of the code *)

(** ** The schema *)

Lemma check_str_field f lo hi v x :
  check_str f lo hi v = inl x → field_of x = f.
Proof. rewrite check_str_spec. by intros []. Qed.

Lemma check_email_field syntax v x :
  check_email "email" syntax v = inl x → field_of x = "email".
Proof. rewrite check_email_spec. naive_solver. Qed.

Lemma check_optional_field f v x :
  check_optional f v = inl x → field_of x = f.
Proof. rewrite check_optional_spec. by intros [_ ->]. Qed.

Lemma check_optional_passed_on f v o :
  check_optional f v = inr o → passed_on v o.
Proof.
  unfold check_optional, passed_on.
  destruct v as [[|s|]|]; intros [= <-]; naive_solver.
Qed.

(** X1. A body that is accepted meets the schema: the name is the
    string sent, unchanged, has 2 to 120 code points and no lone
    surrogate; the description is the string sent, has at least 10 code
    points and no lone surrogate; the address is what the syntax
    checker made of the string sent; each optional field is the string
    sent, or nothing when the member is absent or null. *)
Theorem accepted_submission_meets_schema syntax raw p :
  parse_ContactSubmission syntax raw = inr p →
  raw !! "name" = Some (JString (name p))
  ∧ (2 ≤ length (name p))%nat ∧ (length (name p) ≤ 120)%nat
  ∧ (∃ a, raw !! "email" = Some (JString a) ∧ syntax a = Some (email p))
  ∧ raw !! "description" = Some (JString (description p))
  ∧ (10 ≤ length (description p))%nat
  ∧ passed_on (raw !! "phone") (phone p)
  ∧ passed_on (raw !! "business") (business p)
  ∧ passed_on (raw !! "budget") (budget p)
  ∧ well_formed (name p)
  ∧ well_formed (description p).
Proof.
  unfold parse_ContactSubmission.
  destruct (check_optional "phone" _) as [?|ph] eqn:Eph;
    [by destruct (check_str "name" _ _ _), (check_email _ _ _)|].
  destruct (check_optional "business" _) as [?|bu] eqn:Ebu;
    [by destruct (check_str "name" _ _ _), (check_email _ _ _)|].
  destruct (check_optional "budget" _) as [?|bg] eqn:Ebg;
    [by destruct (check_str "name" _ _ _), (check_email _ _ _)|].
  apply check_optional_passed_on in Eph, Ebu, Ebg.
  unfold check_str, check_email.
  destruct (raw !! "name") as [[|n|]|]; try discriminate.
  destruct (Py.has_surrogate n) eqn:Hn; [discriminate|].
  destruct (Nat.ltb_spec (length n) 2); [discriminate|].
  destruct (Nat.ltb_spec 120 (length n)); [discriminate|].
  destruct (raw !! "email") as [[|a|]|]; try discriminate.
  destruct (syntax a) as [a'|] eqn:Ea; [|discriminate].
  destruct (raw !! "description") as [[|d|]|]; try discriminate.
  destruct (Py.has_surrogate d) eqn:Hd; [discriminate|].
  destruct (Nat.ltb_spec (length d) 10); [discriminate|].
  intros [= <-]. cbn. split_and!; try done; try lia. by exists a.
Qed.

Lemma accepted_submission_meets_schema_witness :
  jo !! "name" = Some (JString (name jo_payload))
  ∧ (2 ≤ length (name jo_payload))%nat ∧ (length (name jo_payload) ≤ 120)%nat
  ∧ (∃ a, jo !! "email" = Some (JString a)
          ∧ needs_at_sign a = Some (email jo_payload))
  ∧ jo !! "description" = Some (JString (description jo_payload))
  ∧ (10 ≤ length (description jo_payload))%nat
  ∧ passed_on (jo !! "phone") (phone jo_payload)
  ∧ passed_on (jo !! "business") (business jo_payload)
  ∧ passed_on (jo !! "budget") (budget jo_payload)
  ∧ well_formed (name jo_payload)
  ∧ well_formed (description jo_payload).
Proof.
  apply (accepted_submission_meets_schema needs_at_sign jo jo_payload).
  reflexivity.
Defined.

Lemma accepted_iff_valid syntax raw :
  (∃ p, parse_ContactSubmission syntax raw = inr p)
  ↔ ¬ ∃ v, violated syntax raw v.
Proof.
  rewrite <- reported_iff_violated. split.
  - intros [p Hp] Hne. rewrite (parse_rejects _ _ Hne) in Hp. discriminate Hp.
  - intros Hne. apply parse_accepts.
    destruct (all_violations syntax raw); [done|]. by destruct Hne.
Qed.

(** X2. A body is accepted exactly when it violates none of the
    constraints of the schema: the three required members are strings,
    name and description hold no lone surrogate and are within their
    bounds, which are inclusive, the address passes the syntax check,
    and each optional member is absent, null or a string.  Exactly the
    accepted bodies reach the handler, which calls the store. *)
Theorem valid_submission_accepted w raw :
  ((∃ p, parse_ContactSubmission (email_syntax w) raw = inr p)
   ↔ ¬ ∃ v, violated (email_syntax w) raw v)
  ∧ ((¬ ∃ v, violated (email_syntax w) raw v) ↔
     ∃ p, persist_call p ∈ snd (post_api_contact w raw)).
Proof.
  split; [apply accepted_iff_valid|].
  rewrite <- accepted_iff_valid. unfold post_api_contact. split.
  - intros [p Hp]. exists p. rewrite Hp, submit_contact_unfold.
    notifier_cases w p ([] ++ [persist_call p]); set_solver.
  - intros [p Hp]. destruct (parse_ContactSubmission _ _) as [detail|p'].
    + destruct (render_detail w detail); by apply elem_of_nil in Hp.
    + by exists p'.
Qed.

(** X3. A member the schema does not declare has no influence: adding
    it to a body or removing it from one changes neither the verdict
    nor the submission built. *)
Theorem undeclared_members_ignored syntax raw k v :
  k ∉ declared_fields →
  parse_ContactSubmission syntax (<[k := v]> raw)
  = parse_ContactSubmission syntax raw
  ∧ parse_ContactSubmission syntax (delete k raw)
    = parse_ContactSubmission syntax raw.
Proof.
  intros Hk. unfold declared_fields in Hk.
  assert (k ≠ "name" ∧ k ≠ "email" ∧ k ≠ "phone" ∧ k ≠ "business"
          ∧ k ≠ "budget" ∧ k ≠ "description")
    as (H1 & H2 & H3 & H4 & H5 & H6) by set_solver.
  unfold parse_ContactSubmission.
  by rewrite !lookup_insert_ne, !lookup_delete_ne.
Qed.

Lemma undeclared_members_ignored_witness :
  parse_ContactSubmission needs_at_sign jo_with_extra
  = parse_ContactSubmission needs_at_sign jo
  ∧ parse_ContactSubmission needs_at_sign (delete "newsletter" jo)
    = parse_ContactSubmission needs_at_sign jo.
Proof.
  apply (undeclared_members_ignored needs_at_sign jo "newsletter"
           (JString (Py.lit "yes"))).
  unfold declared_fields. set_solver.
Defined.

(** X4. The detail of a rejection is not empty and holds at most one
    violation for each declared field, in the order of the
    declarations: name, email, phone, business, budget, description. *)
Theorem violation_detail_order syntax raw detail :
  parse_ContactSubmission syntax raw = inl detail →
  detail ≠ []
  ∧ sublist (field_of <$> detail)
      ["name"; "email"; "phone"; "business"; "budget"; "description"]
  ∧ (length detail ≤ 6)%nat.
Proof.
  intros [-> Hne]%parse_detail. split; [exact Hne|].
  assert (sublist (field_of <$> all_violations syntax raw)
            ["name"; "email"; "phone"; "business"; "budget"; "description"])
    as Hs.
  { unfold all_violations.
    destruct (check_str "name" _ _ _) as [x1|] eqn:E1;
      destruct (check_email _ _ _) as [x2|] eqn:E2;
      destruct (check_optional "phone" _) as [x3|] eqn:E3;
      destruct (check_optional "business" _) as [x4|] eqn:E4;
      destruct (check_optional "budget" _) as [x5|] eqn:E5;
      destruct (check_str "description" _ _ _) as [x6|] eqn:E6; cbn;
      rewrite ?(check_str_field _ _ _ _ _ E1), ?(check_email_field _ _ _ E2),
        ?(check_optional_field _ _ _ E3), ?(check_optional_field _ _ _ E4),
        ?(check_optional_field _ _ _ E5), ?(check_str_field _ _ _ _ _ E6);
      repeat first [apply sublist_nil | apply sublist_skip | apply sublist_cons]. }
  split; [exact Hs|].
  apply sublist_length in Hs. by rewrite length_fmap in Hs.
Qed.

Lemma violation_detail_order_witness :
  [StringTooShort "name" 2; StringTooShort "description" 10] ≠ []
  ∧ sublist (field_of <$> [StringTooShort "name" 2;
                           StringTooShort "description" 10])
      ["name"; "email"; "phone"; "business"; "budget"; "description"]
  ∧ (length [StringTooShort "name" 2; StringTooShort "description" 10] ≤ 6)%nat.
Proof.
  apply (violation_detail_order needs_at_sign too_short). reflexivity.
Defined.

(** ** The route *)


(** X6. Every run of the handler calls the store exactly once, first,
    with the collection ["contactsubmission"] and the submission it was
    given, then enters the notifier exactly once; whatever follows in
    the log is a call to the SMTP server. *)
Theorem store_then_notify_once w payload :
  ∃ s, snd (submit_contact w payload [])
       = persist_call payload :: Notify payload :: s
       ∧ Forall (λ ev, is_smtp ev = true) s.
Proof.
  rewrite submit_contact_unfold.
  notifier_cases w payload ([] ++ [persist_call payload]).
  - by exists [].
  - exists log. split; [reflexivity|]. by eapply session_is_smtp.
  - by exists [].
  - by exists [].
Qed.

(** X7. With a port text [int] accepts, and mail unconfigured or a
    message that can be encoded, the handler returns a dict whose [id]
    is the identifier the store returned, unchanged, whatever happens
    to the mail. *)
Theorem stored_identifier_passed_through w payload port i :
  Py.int (python w) (port_text (environ w)) = Some port →
  mail_unconfigured (environ w) ∨ encodable payload →
  create_document w = inr i →
  ∃ body t, submit_contact w payload [] = (inr body, t)
            ∧ body !! "id" = Some (VStr i).
Proof.
  intros Hport Hmsg Hi.
  destruct (submit_contact_succeeds w port payload Hport Hmsg)
    as (d & t & -> & _).
  eexists _, _. split; [reflexivity|].
  unfold success_body, stored_id. by rewrite Hi.
Qed.

Lemma stored_identifier_passed_through_witness :
  ∃ body t, submit_contact mail_refused jo_payload [] = (inr body, t)
            ∧ body !! "id" = Some (VStr (Py.lit "65f0c0ffee")).
Proof.
  apply (stored_identifier_passed_through mail_refused jo_payload 587).
  - reflexivity.
  - right. by repeat split.
  - reflexivity.
Defined.

(** X8. A success body has exactly the keys [ok], [id], [email] and
    [message], and [ok] is [True].  Its [email] member is a dict that
    either says [sent: True] and has no reason, or says [sent: False]
    and has a reason of at most 120 code points. *)
Theorem success_body_shape w raw body t :
  post_api_contact w raw = (Ok200 body, t) →
  dom body = body_keys
  ∧ body !! "ok" = Some (VBool true)
  ∧ ∃ em, body !! "email" = Some (VDict em)
          ∧ ((dom em = {[ "sent" ]} ∧ em !! "sent" = Some (VBool true))
             ∨ (dom em = {[ "sent"; "reason" ]}
                ∧ em !! "sent" = Some (VBool false)
                ∧ ∃ r, em !! "reason" = Some (VStr r)
                       ∧ (length r ≤ 120)%nat)).
Proof.
  unfold post_api_contact.
  destruct (parse_ContactSubmission _ _) as [detail|p];
    [by destruct (render_detail w detail)|].
  rewrite submit_contact_unfold.
  destruct (_send_confirmation_email w p _) as [[err|d] l] eqn:Hs;
    [discriminate|].
  apply send_result_forms in Hs as Hd.
  intros [= <- <-]. split; [reflexivity|]. split; [reflexivity|].
  exists d. split; [reflexivity|].
  destruct Hd as [->|[->|[e ->]]].
  - right. split_and!; try reflexivity.
    eexists. split; [reflexivity|]. cbn. lia.
  - left. by split.
  - right. split_and!; try reflexivity.
    eexists. split; [reflexivity|]. rewrite length_take. lia.
Qed.

Lemma success_body_shape_witness :
  ∃ body : gmap string value,
    dom body = body_keys
    ∧ body !! "ok" = Some (VBool true)
    ∧ ∃ em, body !! "email" = Some (VDict em)
            ∧ ((dom em = {[ "sent" ]} ∧ em !! "sent" = Some (VBool true))
               ∨ (dom em = {[ "sent"; "reason" ]}
                  ∧ em !! "sent" = Some (VBool false)
                  ∧ ∃ r, em !! "reason" = Some (VStr r)
                         ∧ (length r ≤ 120)%nat)).
Proof.
  eexists.
  eapply (success_body_shape offline jo _
            [persist_call jo_payload; Notify jo_payload]).
  reflexivity.
Defined.

(** X9. When [int] refuses the text of [SMTP_PORT], a valid body is
    answered with the unhandled fault after the store has been called
    with it: the submission is stored although the client is told the
    request failed, and no call to the SMTP server is made. *)
Theorem fault_after_store w raw payload :
  parse_ContactSubmission (email_syntax w) raw = inr payload →
  Py.int (python w) (port_text (environ w)) = None →
  post_api_contact w raw
  = (InternalServerError, [persist_call payload; Notify payload]).
Proof.
  intros Hparse Hport. unfold post_api_contact.
  by rewrite Hparse, (submit_contact_raises w payload [] Hport).
Qed.

Lemma fault_after_store_witness :
  post_api_contact malformed_port jo
  = (InternalServerError, [persist_call jo_payload; Notify jo_payload]).
Proof.
  apply (fault_after_store malformed_port jo jo_payload); reflexivity.
Defined.





(** ** The notifier and the SMTP session *)

(** X10. The path on which the mail goes out.  With host, user and
    credential set, a port text [int] accepts, a message that can be
    encoded and a server that accepts every call, the notifier returns
    [{sent: True}] after exactly five calls in this order: [SMTP] with
    the configured host and the port read, [starttls], [login] with
    user and credential, [sendmail] of one message from the resolved
    sender to the address of the submission, and the closing of the
    session. *)
Theorem delivery_path w port payload t host user password :
  Py.int (python w) (port_text (environ w)) = Some port →
  ¬ mail_unconfigured (environ w) →
  encodable payload →
  environ w !! "SMTP_HOST" = Some host →
  environ w !! "SMTP_USER" = Some user →
  environ w !! "SMTP_PASS" = Some password →
  smtp_connect w = inr () → smtp_starttls w = inr () →
  smtp_login w = inr () → smtp_sendmail w = inr () → smtp_exit w = inr () →
  ∃ msg,
    msg_from msg = default user (environ w !! "SMTP_FROM")
    ∧ msg_to msg = email payload
    ∧ _send_confirmation_email w payload t
      = (inr (dict [("sent", VBool true)]),
         t ++ [Notify payload;
               SmtpConnect host port;
               SmtpStartTLS;
               SmtpLogin user password;
               SmtpSendmail (default user (environ w !! "SMTP_FROM"))
                 [email payload] msg;
               SmtpExit]).
Proof.
  intros Hport Hconf Henc Hh Hu Hpw H1 H2 H3 H4 H5.
  destruct (send_configured w port Hport payload t host user password
              Hconf Henc Hh Hu Hpw)
    as (msg & r & log & Hmf & Hmt & Hses & ->).
  exists msg. split; [exact Hmf|]. split; [exact Hmt|].
  destruct Hses; try congruence.
  match goal with H : smtp_exit w = _ |- _ => rewrite H5 in H; subst end.
  reflexivity.
Qed.

Lemma delivery_path_witness :
  ∃ msg,
    msg_from msg = Py.lit "mailer"
    ∧ msg_to msg = Py.lit "jo@example.com"
    ∧ _send_confirmation_email mail_accepted jo_payload []
      = (inr (dict [("sent", VBool true)]),
         [Notify jo_payload;
          SmtpConnect (Py.lit "mail.example.com") 587;
          SmtpStartTLS;
          SmtpLogin (Py.lit "mailer") (Py.lit "secret");
          SmtpSendmail (Py.lit "mailer") [Py.lit "jo@example.com"] msg;
          SmtpExit]).
Proof.
  apply (delivery_path mail_accepted 587 jo_payload []
           (Py.lit "mail.example.com") (Py.lit "mailer") (Py.lit "secret"));
    try reflexivity.
  - intros [H|[H|[H|H]]]; vm_compute in H;
      try destruct H as [H|H]; discriminate H.
  - by repeat split.
Defined.

(** X11. With mail configured, a port text [int] accepts and a message
    that can be encoded, the notifier reports [sent: True] exactly when
    all five calls to the server succeed.  In particular a failure
    while the session is closed is reported as not sent although the
    message was handed over. *)
Theorem sent_iff_session_clean w port payload t :
  Py.int (python w) (port_text (environ w)) = Some port →
  ¬ mail_unconfigured (environ w) →
  encodable payload →
  ∃ result t',
    _send_confirmation_email w payload t = (inr result, t')
    ∧ (result !! "sent" = Some (VBool true)
       ↔ smtp_connect w = inr () ∧ smtp_starttls w = inr ()
         ∧ smtp_login w = inr () ∧ smtp_sendmail w = inr ()
         ∧ smtp_exit w = inr ()).
Proof.
  intros Hport Hconf Henc.
  destruct (configured_settings _ Hconf)
    as (host & user & password & Hh & _ & Hu & _ & Hpw & _).
  destruct (send_configured w port Hport payload t host user password
              Hconf Henc Hh Hu Hpw)
    as (msg & r & log & _ & _ & Hses & ->).
  eexists _, _. split; [reflexivity|].
  destruct Hses as [e H1|e x H1 H2 H5|e x H1 H2 H3 H5|e x H1 H2 H3 H4 H5
                   |x H1 H2 H3 H4 H5];
    try (split; [intros H; discriminate H|intros (?&?&?&?&?); congruence]).
  destruct x as [e'|[]].
  - split; [intros H; discriminate H|intros (?&?&?&?&?); congruence].
  - by split.
Qed.

Lemma sent_iff_session_clean_witness :
  ∃ result t',
    _send_confirmation_email mail_accepted jo_payload [] = (inr result, t')
    ∧ (result !! "sent" = Some (VBool true)
       ↔ smtp_connect mail_accepted = inr ()
         ∧ smtp_starttls mail_accepted = inr ()
         ∧ smtp_login mail_accepted = inr ()
         ∧ smtp_sendmail mail_accepted = inr ()
         ∧ smtp_exit mail_accepted = inr ()).
Proof.
  apply (sent_iff_session_clean mail_accepted 587 jo_payload []).
  - reflexivity.
  - intros [H|[H|[H|H]]]; vm_compute in H;
      try destruct H as [H|H]; discriminate H.
  - by repeat split.
Defined.

(** X12. Credentials are never sent over a session that has not
    negotiated TLS: in the log of the notifier a login is found only
    when connecting and [starttls] succeeded, and the [starttls] call
    comes right before it. *)
Theorem login_only_after_starttls w payload i user password :
  snd (_send_confirmation_email w payload []) !! i
  = Some (SmtpLogin user password) →
  smtp_connect w = inr ()
  ∧ smtp_starttls w = inr ()
  ∧ ∃ j, i = S j
         ∧ snd (_send_confirmation_email w payload []) !! j
           = Some SmtpStartTLS.
Proof.
  notifier_cases w payload (@nil event); cbn [snd app].
  - destruct i as [|[|i]]; discriminate.
  - intros Hi.
    destruct Hses as [e H1|e x H1 H2 H5|e x H1 H2 H3 H5|e x H1 H2 H3 H4 H5
                     |x H1 H2 H3 H4 H5];
      destruct i as [|[|[|[|[|[|i]]]]]]; cbn in Hi; try discriminate Hi;
      (split; [assumption|]; split; [assumption|];
       eexists; split; reflexivity).
  - destruct i as [|[|i]]; discriminate.
  - destruct i as [|[|i]]; discriminate.
Qed.

Lemma login_only_after_starttls_witness :
  smtp_connect mail_accepted = inr ()
  ∧ smtp_starttls mail_accepted = inr ()
  ∧ ∃ j, 3 = S j
         ∧ snd (_send_confirmation_email mail_accepted jo_payload []) !! j
           = Some SmtpStartTLS.
Proof.
  apply (login_only_after_starttls mail_accepted jo_payload 3
           (Py.lit "mailer") (Py.lit "secret")).
  reflexivity.
Defined.

(** X13. A session that was opened is always closed: when the server
    accepted the connection, the last call of the notifier is the one
    that closes the session, whatever failed in between; when it
    refused the connection, the connect call is the last one and
    nothing else is sent. *)
Theorem session_always_closed w payload host port :
  SmtpConnect host port ∈ snd (_send_confirmation_email w payload []) →
  match smtp_connect w with
  | inr _ => last (snd (_send_confirmation_email w payload [])) = Some SmtpExit
  | inl _ => last (snd (_send_confirmation_email w payload []))
             = Some (SmtpConnect host port)
  end.
Proof.
  notifier_cases w payload (@nil event); cbn [snd app]; intros H.
  - in_log H.
  - destruct Hses as [e H1|e x H1 H2 H5|e x H1 H2 H3 H5|e x H1 H2 H3 H4 H5
                     |x H1 H2 H3 H4 H5]; rewrite H1; in_log H;
      by injection H as -> ->.
  - in_log H.
  - in_log H.
Qed.

Lemma session_always_closed_witness :
  last (snd (_send_confirmation_email mail_accepted jo_payload []))
  = Some SmtpExit
  ∧ last (snd (_send_confirmation_email mail_refused jo_payload []))
    = Some (SmtpConnect (Py.lit "mail.example.com") 587).
Proof.
  split.
  - apply (session_always_closed mail_accepted jo_payload
             (Py.lit "mail.example.com") 587).
    vm_compute. set_solver.
  - apply (session_always_closed mail_refused jo_payload
             (Py.lit "mail.example.com") 587).
    vm_compute. set_solver.
Defined.

(** X14. Mail goes to the submitter and to nobody else: every message
    the notifier hands to [sendmail] has the address of the submission
    as its only recipient and as its [To] header, and its sender and
    [From] header are [SMTP_FROM] when that is set and [SMTP_USER]
    otherwise, never empty.  Every call of [SMTP] gets [SMTP_HOST] and
    the number [int] read from the port text as its arguments. *)
Theorem mail_goes_to_submitter w payload :
  (∀ f tos m,
     SmtpSendmail f tos m ∈ snd (_send_confirmation_email w payload []) →
     tos = [email payload]
     ∧ msg_to m = email payload
     ∧ msg_from m = f
     ∧ f ≠ []
     ∧ f = default (default [] (environ w !! "SMTP_USER"))
             (environ w !! "SMTP_FROM"))
  ∧ (∀ h p,
       SmtpConnect h p ∈ snd (_send_confirmation_email w payload []) →
       environ w !! "SMTP_HOST" = Some h
       ∧ Py.int (python w) (port_text (environ w)) = Some p).
Proof.
  notifier_cases w payload (@nil event); cbn [snd app].
  - split; intros; match goal with H : _ ∈ _ |- _ => in_log H end.
  - rewrite Hu. cbn [default].
    split.
    + intros f tos m H.
      destruct Hses as [e H1|e x H1 H2 H5|e x H1 H2 H3 H5|e x H1 H2 H3 H4 H5
                       |x H1 H2 H3 H4 H5];
        in_log H; injection H as -> -> ->; by split_and!.
    + intros h p H.
      destruct Hses as [e H1|e x H1 H2 H5|e x H1 H2 H3 H5|e x H1 H2 H3 H4 H5
                       |x H1 H2 H3 H4 H5];
        in_log H; injection H as -> ->; by split.
  - split; intros; match goal with H : _ ∈ _ |- _ => in_log H end.
  - split; intros; match goal with H : _ ∈ _ |- _ => in_log H end.
Qed.

Lemma mail_goes_to_submitter_witness :
  ∃ f tos m,
    SmtpSendmail f tos m
    ∈ snd (_send_confirmation_email mail_accepted jo_payload [])
    ∧ tos = [email jo_payload]
    ∧ msg_to m = email jo_payload
    ∧ msg_from m = f
    ∧ f ≠ []
    ∧ f = default (default [] (environ mail_accepted !! "SMTP_USER"))
            (environ mail_accepted !! "SMTP_FROM").
Proof.
  destruct (snd (_send_confirmation_email mail_accepted jo_payload []) !! 4)
    as [[| | | | |f tos m|]|] eqn:E;
    try (vm_compute in E; discriminate E).
  apply list_elem_of_lookup_2 in E.
  exists f, tos, m. split; [exact E|].
  exact (proj1 (mail_goes_to_submitter mail_accepted jo_payload) f tos m E).
Defined.

(** ** The diagnostic endpoint, continued *)

(** X15. The initial text of [database] is never reported: every path
    through [test_database] overwrites it, so the response never says
    that the database is "Not Available"; and [backend] always says
    "Running". *)
Theorem initial_status_never_reported w :
  test_database w !! "database"
  ≠ Some (VStr (0x274C%N :: Py.lit " Not Available"))
  ∧ test_database w !! "database" ≠ initial_response !! "database"
  ∧ test_database w !! "backend" = Some (VStr (0x2705%N :: Py.lit " Running")).
Proof.
  destruct (diagnostic_cases w) as [Hd|d e Hd Hn|d nm e Hd Hn Hl|d nm ns Hd Hn Hl].
  - rewrite (test_database_no_handle w Hd). by split_and!.
  - rewrite (test_database_name_raises w d e Hd Hn). by split_and!.
  - rewrite (test_database_listing_raises w d nm e Hd Hn Hl). by split_and!.
  - rewrite (test_database_listing_returns w d nm ns Hd Hn Hl). by split_and!.
Qed.

(** X16. [connection_status] says "Connected" exactly when a handle
    exists, reading its name did not raise and listing the collections
    returned; [database] then says "Connected & Working", and in every
    other case [connection_status] says "Not Connected" and
    [collections] is empty. *)
Theorem connected_iff_listing_returns w :
  (test_database w !! "connection_status" = Some (VStr (Py.lit "Connected"))
   ↔ ∃ d nm names, db w = Some d ∧ resolved_name (environ w) d nm
                   ∧ list_collection_names d = inr names)
  ∧ (test_database w !! "connection_status" = Some (VStr (Py.lit "Connected"))
     ↔ test_database w !! "database"
       = Some (VStr (0x2705%N :: Py.lit " Connected & Working")))
  ∧ (test_database w !! "connection_status" = Some (VStr (Py.lit "Connected"))
     ∨ test_database w !! "connection_status"
       = Some (VStr (Py.lit "Not Connected"))
       ∧ test_database w !! "collections" = Some (VList [])).
Proof.
  destruct (diagnostic_cases w) as [Hd|d e Hd Hn|d nm e Hd Hn Hl|d nm ns Hd Hn Hl].
  - rewrite (test_database_no_handle w Hd). split_and!.
    + split; [discriminate|]. intros (? & ? & ? & ? & _). congruence.
    + split; discriminate.
    + by right.
  - rewrite (test_database_name_raises w d e Hd Hn). split_and!.
    + split; [discriminate|]. intros (d' & nm & ? & Hd' & Hn' & _).
      rewrite Hd in Hd'. injection Hd' as <-. destruct Hn'; congruence.
    + split; discriminate.
    + by right.
  - rewrite (test_database_listing_raises w d nm e Hd Hn Hl). split_and!.
    + split; [discriminate|]. intros (d' & ? & ? & Hd' & _ & Hl').
      rewrite Hd in Hd'. injection Hd' as <-. congruence.
    + split; discriminate.
    + by right.
  - rewrite (test_database_listing_returns w d nm ns Hd Hn Hl). split_and!.
    + split; [|done]. intros _. by exists d, nm, ns.
    + by split.
    + by left.
Qed.

(** X17. When the listing returns, [collections] holds its first ten
    names in their order, and all of them when there are at most ten:
    nothing is dropped below the limit or reordered. *)
Theorem collections_are_first_ten w d nm names :
  db w = Some d →
  resolved_name (environ w) d nm →
  list_collection_names d = inr names →
  test_database w !! "collections" = Some (VList (take 10 names))
  ∧ take 10 names `prefix_of` names
  ∧ ((length names ≤ 10)%nat →
     test_database w !! "collections" = Some (VList names)).
Proof.
  intros Hd Hn Hl. rewrite (test_database_listing_returns w d nm names Hd Hn Hl).
  split; [reflexivity|]. split; [apply prefix_take|].
  intros Hlen. by rewrite take_ge.
Qed.

Lemma collections_are_first_ten_witness :
  test_database twelve_collections !! "collections"
  = Some (VList (take 10 (replicate 12 (Py.lit "c"))))
  ∧ take 10 (replicate 12 (Py.lit "c")) `prefix_of` replicate 12 (Py.lit "c")
  ∧ ((length (replicate 12 (Py.lit "c")) ≤ 10)%nat →
     test_database twelve_collections !! "collections"
     = Some (VList (replicate 12 (Py.lit "c")))).
Proof.
  apply (collections_are_first_ten twelve_collections
           {| db_name := AttrMissing;
              list_collection_names := inr (replicate 12 (Py.lit "c")) |}
           (Py.lit "Unknown")).
  - reflexivity.
  - apply (name_of_environment (environ twelve_collections)
             {| db_name := AttrMissing;
                list_collection_names := inr (replicate 12 (Py.lit "c")) |}).
    reflexivity.
  - reflexivity.
Defined.

(** X18. The text of [database] is bounded: it has at most 104 code
    points in every response, however long the text of a caught
    exception is. *)
Theorem database_text_bounded w :
  ∃ s, test_database w !! "database" = Some (VStr s) ∧ (length s ≤ 104)%nat.
Proof.
  destruct (diagnostic_cases w) as [Hd|d e Hd Hn|d nm e Hd Hn Hl|d nm ns Hd Hn Hl].
  - rewrite (test_database_no_handle w Hd).
    eexists. split; [reflexivity|]. cbn. lia.
  - rewrite (test_database_name_raises w d e Hd Hn).
    exists (probe_error e). split; [reflexivity|].
    unfold probe_error. cbn [length]. rewrite length_app, length_take.
    change (length (Py.lit " Error: ")) with 8. lia.
  - rewrite (test_database_listing_raises w d nm e Hd Hn Hl).
    exists (listing_error e). split; [reflexivity|].
    unfold listing_error. rewrite !length_app, length_take.
    change (length (Py.lit " Connected but Error: ")) with 22. cbn [length]. lia.
  - rewrite (test_database_listing_returns w d nm ns Hd Hn Hl).
    eexists. split; [reflexivity|]. cbn. lia.
Qed.

(** X19. How [database_name] is resolved once a handle exists: the name
    of the handle wins over the environment; without a [name] attribute
    it is [DATABASE_NAME], and "Unknown" when that is unset or empty;
    when reading the name raises, the field keeps its initial text.
    The outcome of the listing does not matter. *)
Theorem database_name_resolution w d :
  db w = Some d →
  test_database w !! "database_name"
  = Some (VStr match db_name d with
               | AttrValue v => v
               | AttrMissing =>
                   match environ w !! "DATABASE_NAME" with
                   | Some (c :: s) => c :: s
                   | _ => Py.lit "Unknown"
                   end
               | AttrRaises _ => 0x274C%N :: Py.lit " Not Set"
               end).
Proof.
  intros Hd. destruct (db_name d) as [|v|e] eqn:Hn.
  - assert (resolved_name (environ w) d
              (Py.or_else (environ w !! "DATABASE_NAME") (Py.lit "Unknown")))
      as Hr by (by apply name_of_environment).
    destruct (list_collection_names d) as [e|ns] eqn:Hl.
    + rewrite (test_database_listing_raises w d _ e Hd Hr Hl).
      by destruct (environ w !! "DATABASE_NAME") as [[|? ?]|].
    + rewrite (test_database_listing_returns w d _ ns Hd Hr Hl).
      by destruct (environ w !! "DATABASE_NAME") as [[|? ?]|].
  - assert (resolved_name (environ w) d v) as Hr by (by apply name_of_handle).
    destruct (list_collection_names d) as [e|ns] eqn:Hl.
    + by rewrite (test_database_listing_raises w d _ e Hd Hr Hl).
    + by rewrite (test_database_listing_returns w d _ ns Hd Hr Hl).
  - by rewrite (test_database_name_raises w d e Hd Hn).
Qed.

Lemma database_name_resolution_witness :
  test_database listing_fails !! "database_name" = Some (VStr (Py.lit "kma"))
  ∧ test_database twelve_collections !! "database_name"
    = Some (VStr (Py.lit "Unknown")).
Proof.
  split.
  - apply (database_name_resolution listing_fails
             {| db_name := AttrValue (Py.lit "kma");
                list_collection_names := refused "timed out" |}).
    reflexivity.
  - apply (database_name_resolution twelve_collections
             {| db_name := AttrMissing;
                list_collection_names := inr (replicate 12 (Py.lit "c")) |}).
    reflexivity.
Defined.

(** X20. Once a handle exists, [database_url] says "Set" exactly when
    [DATABASE_URL] is set and not empty, also when a later probe
    raises; the value of the variable is never shown. *)
Theorem database_url_reflects_environment w d :
  db w = Some d →
  (test_database w !! "database_url" = Some (VStr (0x2705%N :: Py.lit " Set"))
   ↔ ∃ c s, environ w !! "DATABASE_URL" = Some (c :: s))
  ∧ (test_database w !! "database_url" = Some (VStr (0x2705%N :: Py.lit " Set"))
     ∨ test_database w !! "database_url"
       = Some (VStr (0x274C%N :: Py.lit " Not Set"))).
Proof.
  intros Hd.
  assert (test_database w !! "database_url"
          = Some (VStr (url_status (environ w)))) as ->.
  { destruct (diagnostic_cases w) as [Hd'|d' e Hd' Hn|d' nm e Hd' Hn Hl
                                     |d' nm ns Hd' Hn Hl].
    - congruence.
    - by rewrite (test_database_name_raises w d' e Hd' Hn).
    - by rewrite (test_database_listing_raises w d' nm e Hd' Hn Hl).
    - by rewrite (test_database_listing_returns w d' nm ns Hd' Hn Hl). }
  unfold url_status.
  destruct (environ w !! "DATABASE_URL") as [[|c s]|]; cbn; split;
    try (by left); try (by right);
    (split; [try discriminate; by eexists _, _
            |try done; intros (? & ? & ?); discriminate]).
Qed.

Lemma database_url_reflects_environment_witness :
  (test_database listing_fails !! "database_url"
   = Some (VStr (0x2705%N :: Py.lit " Set"))
   ↔ ∃ c s, environ listing_fails !! "DATABASE_URL" = Some (c :: s))
  ∧ (test_database listing_fails !! "database_url"
     = Some (VStr (0x2705%N :: Py.lit " Set"))
     ∨ test_database listing_fails !! "database_url"
       = Some (VStr (0x274C%N :: Py.lit " Not Set"))).
Proof.
  apply (database_url_reflects_environment listing_fails
           {| db_name := AttrValue (Py.lit "kma");
              list_collection_names := refused "timed out" |}).
  reflexivity.
Defined.

(** ** The text of the port and the optional fields *)

Lemma scan_digits_all ds n v :
  Forall (λ c, Py.is_digit c = true) ds →
  Py.scan_digits false n v ds
  = Some ((n + length ds)%nat,
          fold_left (λ v c, (10 * v + Z.of_N (c - 48))%Z) ds v, []).
Proof.
  intros H. revert n v.
  induction H as [|c r Hc Hr IH]; intros n v; cbn [Py.scan_digits].
  - by rewrite Nat.add_0_r.
  - rewrite Hc, IH. cbn [length fold_left]. by rewrite Nat.add_succ_r.
Qed.

Lemma digit_range c : Py.is_digit c = true → (48 ≤ c ≤ 57)%N.
Proof.
  unfold Py.is_digit, Py.between. rewrite andb_true_iff, !N.leb_le. lia.
Qed.

Lemma to_ascii_digits rt ds :
  Forall (λ c, Py.is_digit c = true) ds → map (Py.to_ascii rt) ds = ds.
Proof.
  induction 1 as [|c r Hc Hr IH]; [done|]. cbn [map]. rewrite IH. f_equal.
  apply digit_range in Hc. apply to_ascii_ascii. lia.
Qed.

Lemma within_digit_limit_ok rt n :
  within_digit_limit rt n → Py.too_many_digits rt n = false.
Proof.
  unfold within_digit_limit, Py.too_many_digits, Py.max_str_digits_threshold.
  intros H.
  destruct (Nat.ltb_spec 640 n); [|done].
  destruct (Nat.ltb_spec 0 (Py.int_max_str_digits rt)); [|done].
  destruct (Nat.ltb_spec (Py.int_max_str_digits rt) n); [lia|done].
Qed.

(** [int] accepts every non-empty string of ASCII digits that is within
    the digit limit and returns the number it denotes. *)
Lemma int_digits rt ds :
  ds ≠ [] → Forall (λ c, Py.is_digit c = true) ds →
  within_digit_limit rt (length ds) →
  Py.int rt ds = Some (decimal_value ds).
Proof.
  intros Hne Hall Hlen%within_digit_limit_ok.
  unfold Py.int. rewrite (to_ascii_digits rt ds Hall).
  pose proof (scan_digits_all ds 0 0 Hall) as Hscan.
  destruct ds as [|c r]; [done|]. clear Hne.
  assert (48 ≤ c ≤ 57)%N as Hc by (apply digit_range; by inversion Hall).
  set (sd := Py.scan_digits false 0 0) in *.
  set (lim := Py.too_many_digits rt) in *.
  assert (c = 48 ∨ c = 49 ∨ c = 50 ∨ c = 51 ∨ c = 52 ∨ c = 53 ∨ c = 54
          ∨ c = 55 ∨ c = 56 ∨ c = 57)%N as Hcases by lia.
  destruct Hcases as [->|[->|[->|[->|[->|[->|[->|[->|[->| ->]]]]]]]]];
    cbn -[sd lim length]; rewrite Hscan; cbn -[lim length];
    cbn [length] in *; by rewrite Hlen.
Qed.

(** [int] refuses the empty text and every text of blanks, whatever the
    interpreter. *)
Lemma int_blank rt s :
  Forall (λ c, Py.is_c_space c = true) s → Py.int rt s = None.
Proof.
  intros Hs. unfold Py.int.
  assert (Py.skip_space (map (Py.to_ascii rt) s) = []) as ->; [|reflexivity].
  induction Hs as [|c r Hc Hr IH]; [done|]. cbn [map Py.skip_space].
  rewrite to_ascii_ascii, Hc; [exact IH|].
  unfold Py.is_c_space, Py.between in Hc.
  rewrite orb_true_iff, andb_true_iff, !N.leb_le, N.eqb_eq in Hc. lia.
Qed.

(** The port of every connect call the notifier adds to a log is the
    number [int] read. *)
Lemma notifier_connect_port w payload t port h p :
  Py.int (python w) (port_text (environ w)) = Some port →
  SmtpConnect h p ∈ snd (_send_confirmation_email w payload t) →
  SmtpConnect h p ∈ t ∨ p = port.
Proof.
  intros Hport. notifier_cases w payload t; cbn [snd].
  - intros [H|H]%elem_of_app; [by left|in_log H].
  - intros [H|H]%elem_of_app; [by left|]. right.
    assert (port0 = port) as -> by congruence.
    destruct Hses as [e H1|e x H1 H2 H5|e x H1 H2 H3 H5|e x H1 H2 H3 H4 H5
                     |x H1 H2 H3 H4 H5];
      in_log H; by injection H as -> ->.
  - intros [H|H]%elem_of_app; [by left|in_log H].
  - congruence.
Qed.

(** X21. [int] accepts the text of [SMTP_PORT] when the variable is
    unset, which gives 587, and when it holds one or more ASCII digits
    within the digit limit of the interpreter (up to 640 digits the
    limit plays no part), which gives the number they denote.  Then,
    with mail unconfigured or a message that can be encoded, the
    handler returns its dict, and every call of [SMTP] it has made got
    that number as the port, with no check of its range. *)
Theorem numeric_port_accepted w payload port :
  (environ w !! "SMTP_PORT" = None ∧ port = 587%Z)
  ∨ (∃ ds, environ w !! "SMTP_PORT" = Some ds
           ∧ ds ≠ []
           ∧ Forall (λ c, Py.is_digit c = true) ds
           ∧ within_digit_limit (python w) (length ds)
           ∧ port = decimal_value ds) →
  Py.int (python w) (port_text (environ w)) = Some port
  ∧ (mail_unconfigured (environ w) ∨ encodable payload →
     ∃ body t,
       submit_contact w payload [] = (inr body, t)
       ∧ ∀ h p, SmtpConnect h p ∈ t → p = port).
Proof.
  intros Hcase.
  assert (Py.int (python w) (port_text (environ w)) = Some port) as Hport.
  { unfold port_text, Py.getenv_default.
    destruct Hcase as [[-> ->]|(ds & -> & Hne & Hall & Hlen & ->)];
      [reflexivity|by apply int_digits]. }
  split; [exact Hport|]. intros Hmsg.
  rewrite submit_contact_unfold.
  pose proof (notifier_connect_port w payload ([] ++ [persist_call payload])
                port) as Hcalls.
  destruct (send_returns w port payload Hport Hmsg ([] ++ [persist_call payload]))
    as (d & l & Hs & _).
  rewrite Hs in *. eexists _, _. split; [reflexivity|].
  intros h p Hin. destruct (Hcalls h p Hport Hin) as [H|H]; [|exact H].
  unfold persist_call in H. in_log H.
Qed.

Lemma numeric_port_accepted_witness :
  Py.int (python mail_refused) (port_text (environ mail_refused)) = Some 587%Z
  ∧ (mail_unconfigured (environ mail_refused) ∨ encodable jo_payload →
     ∃ body t,
       submit_contact mail_refused jo_payload [] = (inr body, t)
       ∧ ∀ h p, SmtpConnect h p ∈ t → p = 587%Z).
Proof.
  apply (numeric_port_accepted mail_refused jo_payload 587).
  left. by split.
Defined.

Lemma or_else_blank o d : Py.or_else (blank_as_absent o) d = Py.or_else o d.
Proof. by destruct o as [[|? ?]|]. Qed.

Lemma body_text_without_blanks p : body_text (without_blanks p) = body_text p.
Proof.
  unfold body_text.
  cbn [name email phone business budget description without_blanks].
  by rewrite !or_else_blank.
Qed.

(** X22. An optional field sent as the empty string is treated like a
    field that was not sent: the notifier returns the same result and
    hands the same messages, with the same sender and recipients, to
    the server for a submission and for the submission with its empty
    [phone], [business] and [budget] removed. *)
Theorem blank_optional_fields_as_absent w payload t :
  sent_messages (snd (_send_confirmation_email w (without_blanks payload) t))
  = sent_messages (snd (_send_confirmation_email w payload t))
  ∧ fst (_send_confirmation_email w (without_blanks payload) t)
    = fst (_send_confirmation_email w payload t).
Proof.
  destruct (Py.int (python w) (port_text (environ w))) as [port|] eqn:Hport.
  2: { rewrite !(send_malformed_port w _ t Hport). cbn [fst snd].
       unfold sent_messages. rewrite !flat_map_app. done. }
  destruct (unconfigured_or_not (environ w)) as [Hunc|Hconf].
  { rewrite !(send_unconfigured w port Hport _ t Hunc). cbn [fst snd].
    unfold sent_messages. rewrite !flat_map_app. done. }
  apply configured_test in Hconf.
  unfold _send_confirmation_email, bind, enter, lift_option.
  unfold port_text in Hport. rewrite Hport.
  cbv beta iota zeta delta [ret]. rewrite Hconf.
  rewrite body_text_without_blanks.
  cbn [email without_blanks]. unfold MIMEText.
  destruct (Py.has_surrogate (body_text payload)).
  { unfold raise. cbn [fst snd]. unfold sent_messages.
    rewrite !flat_map_app. done. }
  unfold ret, try_except, with_SMTP, bind, call.
  destruct (smtp_connect w) as [?|[]];
    [|destruct (smtp_starttls w) as [?|[]];
      [|destruct (smtp_login w) as [?|[]];
        [|destruct (smtp_sendmail w) as [?|[]]]];
      destruct (smtp_exit w) as [?|[]]];
    cbn [fst snd]; unfold sent_messages; rewrite !flat_map_app; done.
Qed.

(** ** Start-up *)

(** X23. The server starts on port 8000 when [PORT] is unset and on the
    number denoted when [PORT] holds one to 640 ASCII digits, whatever
    the interpreter.  The empty text and a text of blanks do not fall
    back to 8000: the start-up ends with the [ValueError] of [int]. *)
Theorem server_port rt env :
  (env !! "PORT" = None → main_port rt env = inr 8000%Z)
  ∧ (∀ ds, env !! "PORT" = Some ds → ds ≠ [] →
       Forall (λ c, Py.is_digit c = true) ds → (length ds ≤ 640)%nat →
       main_port rt env = inr (decimal_value ds))
  ∧ (∀ s, env !! "PORT" = Some s →
       Forall (λ c, Py.is_c_space c = true) s →
       main_port rt env = inl (InvalidLiteral s)).
Proof.
  unfold main_port. split_and!.
  - by intros ->.
  - intros ds -> Hne Hall Hlen. rewrite int_digits; try done. by left.
  - intros s -> Hs. by rewrite int_blank.
Qed.

Lemma server_port_witness :
  main_port cpython {[ "PORT" := Py.lit "8080" ]} = inr 8080%Z
  ∧ main_port cpython {[ "PORT" := Py.lit "  " ]}
    = inl (InvalidLiteral (Py.lit "  ")).
Proof.
  destruct (server_port cpython {[ "PORT" := Py.lit "8080" ]}) as (_ & Hd & _).
  destruct (server_port cpython {[ "PORT" := Py.lit "  " ]}) as (_ & _ & He).
  split.
  - apply (Hd (Py.lit "8080")); [reflexivity|done| |cbn; lia].
    repeat constructor.
  - apply He; [reflexivity|]. repeat constructor.
Defined.

(** A [PORT] of Arabic-Indic digits is one [int] accepts. *)
Example server_port_arabic :
  main_port cpython {[ "PORT" := arabic_8080 ]} = inr 8080%Z.
Proof. reflexivity. Qed.
